(** * stock-producer/producer.py: the collection-and-delivery cycle

    A shallow embedding of [producer.py]: the paginated fetch
    ([get_all_stock_price_data]), the per-record publish ([send_to_kafka]),
    the scheduler loop and the teardown of [main].

    Every call that leaves the process (HTTP request, sleep, broker call)
    is recorded as an [event] in a trace, in program order, and its result is
    supplied by an explicit environment.  Python exceptions are outcomes;
    [try]/[except]/[finally] are combinators on computations.  Logging is
    not modelled. *)

From Stdlib Require Import ZArith List String Ascii Bool Lia QArith DecimalString.
Import ListNotations.
Local Open Scope string_scope.
Local Open Scope Z_scope.
Local Open Scope list_scope.
Set Warnings "-register-all".

(** ** Python values *)

(** The values [response.json()] produces and [json.dumps] accepts.  A dict
    is the list of its items in insertion order (its keys are distinct).  A
    float behaves like [JNum] at every use in this program: falsy iff zero,
    no [.get], no [len]. *)
Inductive json : Type :=
| JNull
| JBool (b : bool)
| JNum (n : Z)
| JStr (s : string)
| JArr (l : list json)
| JObj (kvs : list (string * json)).

(** [bool(v)], as used by [if not v]. *)
Definition truthy (v : json) : bool :=
  match v with
  | JNull => false
  | JBool b => b
  | JNum n => negb (n =? 0)
  | JStr s => negb (s =? "")%string
  | JArr l => match l with [] => false | _ :: _ => true end
  | JObj kvs => match kvs with [] => false | _ :: _ => true end
  end.

(** Exceptions.  [KeyboardInterrupt] and [SystemExit] derive from
    [BaseException] only; [KafkaError] and everything named by [Exception]
    derive from [Exception]. *)
Inductive exn : Type :=
| KeyboardInterrupt
| SystemExit
| KafkaError
| Exception (name : string).

(** [except Exception] catches [e]. *)
Definition is_Exception (e : exn) : bool :=
  match e with
  | KeyboardInterrupt | SystemExit => false
  | KafkaError | Exception _ => true
  end.

(** [except KafkaError] catches [e]. *)
Definition is_KafkaError (e : exn) : bool :=
  match e with KafkaError => true | _ => false end.

Fixpoint assoc (k : string) (kvs : list (string * json)) : option json :=
  match kvs with
  | [] => None
  | (k', v) :: rest => if (k =? k')%string then Some v else assoc k rest
  end.

(** [v.get(k, default)]: only a dict has [.get]. *)
Definition py_get (k : string) (default : json) (v : json) : exn + json :=
  match v with
  | JObj kvs => inr (match assoc k kvs with Some x => x | None => default end)
  | _ => inl (Exception "AttributeError")
  end.

(** A [str] is held as its UTF-8 encoding.  A byte 10xxxxxx continues the
    character begun before it. *)
Definition is_continuation (c : ascii) : bool :=
  let n := nat_of_ascii c in
  ((128 <=? n) && (n <=? 191))%nat.

(** The characters of a str: each byte that begins a character, with the
    bytes that continue it. *)
Fixpoint utf8_chars (l : list ascii) : list string :=
  match l with
  | [] => []
  | c :: rest =>
      match rest with
      | c' :: _ =>
          if is_continuation c' then
            match utf8_chars rest with
            | w :: ws => String c w :: ws
            | [] => [String c ""]
            end
          else String c "" :: utf8_chars rest
      | [] => [String c ""]
      end
  end.

(** What [len(v)] followed by [list.extend(v)] appends: the elements of a
    list, the keys of a dict, the characters of a str; anything else raises
    [TypeError]. *)
Definition py_iter (v : json) : exn + list json :=
  match v with
  | JArr l => inr l
  | JObj kvs => inr (map (fun kv => JStr (fst kv)) kvs)
  | JStr s => inr (map JStr (utf8_chars (list_ascii_of_string s)))
  | _ => inl (Exception "TypeError")
  end.

(** [str(n)] for an int. *)
Definition str (n : Z) : string := NilZero.string_of_int (Z.to_int n).

(** ** Events and computations *)

(** The query parameters of one page request. *)
Record params : Type := mkParams {
  serviceKey : string;
  resultType : string;
  numOfRows : string;
  pageNo : string;
  basDt : string
}.

Inductive event : Type :=
| EvGet (url : string) (p : params) (timeout : Z)   (* requests.get *)
| EvSleep (seconds : Q)                             (* time.sleep *)
| EvKafkaProducer (servers : list string)           (* KafkaProducer(...) *)
| EvSend (topic : string) (value : json)            (* producer.send *)
| EvFutureGet (timeout : Z)                         (* future.get *)
| EvFlush (timeout : Z)                             (* producer.flush *)
| EvClose (timeout : Z).                            (* producer.close *)

(** How a computation stands: it returned, it raised, or it is still
    running when the observation ends ([Pending]). *)
Inductive outcome (A : Type) : Type :=
| Return (a : A)
| Raise (e : exn)
| Pending.
Arguments Return {A} a.
Arguments Raise {A} e.
Arguments Pending {A}.

(** A computation: the events it performed, in order, and how it stands. *)
Definition M (A : Type) : Type := (list event * outcome A)%type.

Definition ret {A} (a : A) : M A := ([], Return a).
Definition raise {A} (e : exn) : M A := ([], Raise e).

Definition bind {A B} (m : M A) (k : A -> M B) : M B :=
  match m with
  | (tr, Return a) => let (tr', o) := k a in (tr ++ tr', o)
  | (tr, Raise e) => (tr, Raise e)
  | (tr, Pending) => (tr, Pending)
  end.

Notation "x <- m ;; k" := (bind m (fun x => k))
  (at level 61, m at next level, right associativity).
Notation "m ;;; k" := (bind m (fun _ => k))
  (at level 61, right associativity).

(** A pure step that may raise. *)
Definition lift {A} (r : exn + A) : M A :=
  match r with inl e => raise e | inr a => ret a end.

(** An external call returning nothing: the event, then what the
    environment makes of it ([None]: it returns). *)
Definition call (ev : event) (r : option exn) : M unit :=
  ([ev], match r with None => Return tt | Some e => Raise e end).

(** [try: m  except <handles> as e: h e]. *)
Definition try_except {A} (m : M A) (handles : exn -> bool) (h : exn -> M A) : M A :=
  match m with
  | (tr, Raise e) =>
      if handles e then let (tr', o) := h e in (tr ++ tr', o) else (tr, Raise e)
  | _ => m
  end.

(** [try: m  finally: f].  A computation that is still running has not
    reached its [finally] block. *)
Definition try_finally {A} (m : M A) (f : M unit) : M A :=
  match m with
  | (tr, Pending) => (tr, Pending)
  | (tr, o) =>
      let (tr', o') := f in
      (tr ++ tr', match o' with
                  | Return _ => o
                  | Raise e => Raise e
                  | Pending => Pending
                  end)
  end.

(** ** Configuration (the module-level constants) *)

Record Config : Type := mkConfig {
  KAFKA_BOOTSTRAP_SERVERS : string;
  KAFKA_TOPIC : string;
  API_BASE_URL : string;
  API_KEY : string;
  API_ENDPOINT : string;
  COLLECTION_INTERVAL_SECONDS : Z
}.

(** ** get_all_stock_price_data *)

(** What [requests.get(...)], [raise_for_status()] and [response.json()]
    come to for one request: one of them raises, or the body parses. *)
Inductive http_result : Type :=
| Raises (e : exn)
| Body (data : json).

Definition requests_get (url : string) (p : params) (timeout : Z)
    (r : http_result) : M json :=
  ([EvGet url p timeout],
   match r with Raises e => Raise e | Body data => Return data end).

Definition sleep (seconds : Q) (r : option exn) : M unit :=
  call (EvSleep seconds) r.

(** [data.get('response', {}).get('body', {}).get('items', {}).get('item', [])] *)
Definition items_of (data : json) : exn + json :=
  match py_get "response" (JObj []) data with
  | inl e => inl e
  | inr r =>
      match py_get "body" (JObj []) r with
      | inl e => inl e
      | inr b =>
          match py_get "items" (JObj []) b with
          | inl e => inl e
          | inr i => py_get "item" (JArr []) i
          end
      end
  end.

Definition request_params (cfg : Config) (basDt : string)
    (num_of_rows page_no : Z) : params :=
  {| serviceKey := API_KEY cfg;
     resultType := "json";
     numOfRows := str num_of_rows;
     pageNo := str page_no;
     basDt := basDt |}.

Section Fetch.
Variable cfg : Config.
(** The source's answer to the request for page [k], and what the pause
    after page [k] comes to. *)
Variable source : Z -> http_result.
Variable pause : Z -> option exn.

(** The body of the [try] block for one page: [None] is [break], [Some l]
    is [collected_data] after the [extend]. *)
Definition try_page (api_url basDt : string) (num_of_rows page_no : Z)
    (collected_data : list json) : M (option (list json)) :=
  data <- requests_get api_url
            (request_params cfg basDt num_of_rows page_no) 20 (source page_no) ;;
  items <- lift (items_of data) ;;
  if negb (truthy items) then ret None
  else
    new <- lift (py_iter items) ;;
    ret (Some (collected_data ++ new)).

(** The [while True] loop; [fuel] bounds the number of pages observed. *)
Fixpoint fetch_loop (fuel : nat) (api_url basDt : string)
    (num_of_rows page_no : Z) (collected_data : list json) : M (list json) :=
  match fuel with
  | O => ([], Pending)
  | S fuel' =>
      r <- try_except
             (try_page api_url basDt num_of_rows page_no collected_data)
             is_Exception (fun _ => ret None) ;;
      match r with
      | None => ret collected_data
      | Some collected_data' =>
          sleep (3 # 10) (pause page_no) ;;;
          fetch_loop fuel' api_url basDt num_of_rows (page_no + 1) collected_data'
      end
  end.

Definition get_all_stock_price_data (fuel : nat) : M (list json) :=
  if (API_KEY cfg =? "")%string then ret []
  else
    let api_url := (API_BASE_URL cfg ++ "/" ++ API_ENDPOINT cfg)%string in
    let basDt := "20250407" in
    let page_no := 1 in
    let num_of_rows := 100 in
    let collected_data := [] in
    fetch_loop fuel api_url basDt num_of_rows page_no collected_data.
End Fetch.

(** ** Kafka *)

(** [try: m  except c1: h1  except c2: h2 ...]: the first clause that
    matches handles the exception. *)
Fixpoint handler_for {A} (hs : list ((exn -> bool) * (exn -> M A))) (e : exn)
    : option (exn -> M A) :=
  match hs with
  | [] => None
  | (c, h) :: rest => if c e then Some h else handler_for rest e
  end.

Definition try_excepts {A} (m : M A) (hs : list ((exn -> bool) * (exn -> M A))) : M A :=
  match m with
  | (tr, Raise e) =>
      match handler_for hs e with
      | Some h => let (tr', o) := h e in (tr ++ tr', o)
      | None => (tr, Raise e)
      end
  | _ => m
  end.

(** [s.split(',')] *)
Fixpoint split_comma (s : string) : list string :=
  match s with
  | EmptyString => [""%string]
  | String c rest =>
      if Ascii.eqb c ","%char then ""%string :: split_comma rest
      else match split_comma rest with
           | [] => [String c ""]
           | w :: ws => String c w :: ws
           end
  end.

(** Whitespace as [str.strip()] sees it: the characters for which
    [str.isspace()] holds.  Those of one byte: *)
Definition is_space (c : ascii) : bool :=
  let n := nat_of_ascii c in
  ((9 <=? n) && (n <=? 13) || (28 <=? n) && (n <=? 32))%nat.

(** The byte [c] has the value [n]. *)
Definition byte_is (n : nat) (c : ascii) : bool := (nat_of_ascii c =? n)%nat.

(** U+0085 and U+00A0, as the two bytes [a b] of their UTF-8 encoding. *)
Definition is_space2 (a b : ascii) : bool :=
  byte_is 194 a && (byte_is 133 b || byte_is 160 b).

(** U+1680, U+2000..U+200A, U+2028, U+2029, U+202F, U+205F and U+3000, as
    the three bytes [a b c] of their UTF-8 encoding. *)
Definition is_space3 (a b c : ascii) : bool :=
  let n := nat_of_ascii c in
  byte_is 225 a && byte_is 154 b && byte_is 128 c
  || byte_is 226 a && byte_is 128 b
     && ((128 <=? n)%nat && (n <=? 138)%nat
         || byte_is 168 c || byte_is 169 c || byte_is 175 c)
  || byte_is 226 a && byte_is 129 b && byte_is 159 c
  || byte_is 227 a && byte_is 128 b && byte_is 128 c.

(** Drop from the front of [l] every character of one, two or three bytes
    that [p1], [p2] or [p3] accepts, up to the first that none accepts. *)
Fixpoint drop_while3 (p1 : ascii -> bool) (p2 : ascii -> ascii -> bool)
    (p3 : ascii -> ascii -> ascii -> bool) (l : list ascii) : list ascii :=
  match l with
  | a :: rest =>
      if p1 a then drop_while3 p1 p2 p3 rest
      else
        match rest with
        | b :: rest' =>
            if p2 a b then drop_while3 p1 p2 p3 rest'
            else
              match rest' with
              | c :: rest'' =>
                  if p3 a b c then drop_while3 p1 p2 p3 rest'' else l
              | [] => l
              end
        | [] => l
        end
  | [] => []
  end.

(** [s.lstrip()], on the bytes of [s]. *)
Definition lstrip (l : list ascii) : list ascii :=
  drop_while3 is_space is_space2 is_space3 l.

(** [s.rstrip()]: the same from the end, each character read backwards. *)
Definition rstrip (l : list ascii) : list ascii :=
  rev (drop_while3 is_space (fun b a => is_space2 a b)
         (fun c b a => is_space3 a b c) (rev l)).

(** [s.strip()] *)
Definition strip (s : string) : string :=
  string_of_list_ascii (rstrip (lstrip (list_ascii_of_string s))).

(** The connection object; it has no [__bool__] and no [__len__], so it is
    truthy. *)
Inductive KafkaProducer : Type := Producer.

(** [connect]: what the [KafkaProducer(...)] constructor comes to. *)
Definition create_kafka_producer (cfg : Config) (connect : option exn)
    : M (option KafkaProducer) :=
  try_excepts
    (let servers := map strip (split_comma (KAFKA_BOOTSTRAP_SERVERS cfg)) in
     call (EvKafkaProducer servers) connect ;;;
     ret (Some Producer))
    [ (is_KafkaError, fun _ => ret None);
      (is_Exception, fun _ => ret None) ].

(** What the broker makes of one message: [producer.send] raises, or it
    returns a future whose [get] raises or yields the record metadata. *)
Inductive get_result : Type :=
| GetRaises (e : exn)
| Delivered (partition offset : Z).

Inductive send_result : Type :=
| SendRaises (e : exn)
| Sent (future : get_result).

Definition producer_send (producer : KafkaProducer) (topic : string)
    (value : json) (r : send_result) : M get_result :=
  ([EvSend topic value],
   match r with SendRaises e => Raise e | Sent future => Return future end).

Definition future_get (future : get_result) (timeout : Z) : M (Z * Z) :=
  ([EvFutureGet timeout],
   match future with GetRaises e => Raise e | Delivered p o => Return (p, o) end).

Definition send_to_kafka (cfg : Config) (producer : KafkaProducer)
    (data : json) (r : send_result) : M bool :=
  if negb (truthy data) then ret false
  else
    try_excepts
      (future <- producer_send producer (KAFKA_TOPIC cfg) data r ;;
       record_metadata <- future_get future 15 ;;
       ret true)
      [ (is_KafkaError, fun _ => ret false);
        (is_Exception, fun _ => ret false) ].

(** ** Dates *)

(** The calendar part of a [datetime] (a valid date, as [datetime.today()]
    returns); the time of day is never used. *)
Record datetime : Type := mkDate { year : Z; month : Z; day : Z }.

Definition is_leap (y : Z) : bool :=
  (y mod 4 =? 0) && (negb (y mod 100 =? 0) || (y mod 400 =? 0)).

Definition days_before_year (y : Z) : Z :=
  let y := y - 1 in y * 365 + y / 4 - y / 100 + y / 400.

Definition days_before_month (y m : Z) : Z :=
  nth (Z.to_nat m) [0; 0; 31; 59; 90; 120; 151; 181; 212; 243; 273; 304; 334] 0
  + (if (2 <? m) && is_leap y then 1 else 0).

Definition toordinal (d : datetime) : Z :=
  days_before_year (year d) + days_before_month (year d) (month d) + day d.

(** [d.weekday()]: Monday is 0, Sunday is 6. *)
Definition weekday (d : datetime) : Z := (toordinal d + 6) mod 7.

Fixpoint zfill (width : nat) (s : string) : string :=
  match width with
  | O => s
  | S w => if (String.length s <=? w)%nat then zfill w ("0" ++ s)%string else s
  end.

(** [d.strftime('%Y-%m-%d')] *)
Definition strftime_Y_m_d (d : datetime) : string :=
  (zfill 4 (str (year d)) ++ "-" ++ zfill 2 (str (month d)) ++ "-"
     ++ zfill 2 (str (day d)))%string.

(** ** main *)

(** What one iteration of the scheduler loop meets: the clock, the source,
    the pauses between pages, the broker's answer to the [i]-th record, and
    what the sleep at the end of the iteration comes to. *)
Record cycle_env : Type := mkCycle {
  today : datetime;
  source : Z -> http_result;
  pause : Z -> option exn;
  now_isoformat : nat -> string;
  broker : nat -> send_result;
  interval_sleep : option exn
}.

Definition message (cfg : Config) (today : datetime) (now : string)
    (item : json) : json :=
  JObj [ ("source", JStr "stock_price_api");
         ("api_endpoint", JStr (API_ENDPOINT cfg));
         ("search_date", JStr (strftime_Y_m_d today));
         ("retrieved_at", JStr now);
         ("data", item) ].

(** [for item in all_data: ... send_to_kafka(producer, message)], from the
    [i]-th record on. *)
Fixpoint publish_from (cfg : Config) (producer : KafkaProducer)
    (env : cycle_env) (today : datetime) (i : nat) (all_data : list json) : M unit :=
  match all_data with
  | [] => ret tt
  | item :: rest =>
      send_to_kafka cfg producer
        (message cfg today (now_isoformat env i) item) (broker env i) ;;;
      publish_from cfg producer env today (S i) rest
  end.

(** The body of the [while True] loop of [main]. *)
Definition cycle (fuel : nat) (cfg : Config) (producer : KafkaProducer)
    (env : cycle_env) : M unit :=
  let today := today env in
  if 5 <=? weekday today then
    sleep (inject_Z (COLLECTION_INTERVAL_SECONDS cfg)) (interval_sleep env)
  else
    all_data <- get_all_stock_price_data cfg (source env) (pause env) fuel ;;
    match all_data with
    | _ :: _ => publish_from cfg producer env today 0 all_data
    | [] => ret tt
    end ;;;
    sleep (inject_Z (COLLECTION_INTERVAL_SECONDS cfg)) (interval_sleep env).

(** The scheduler loop over the iterations observed. *)
Fixpoint main_loop (fuel : nat) (cfg : Config) (producer : KafkaProducer)
    (cycles : list cycle_env) : M unit :=
  match cycles with
  | [] => ([], Pending)
  | env :: rest =>
      cycle fuel cfg producer env ;;;
      main_loop fuel cfg producer rest
  end.

Record world : Type := mkWorld {
  connect : option exn;
  cycles : list cycle_env;
  flush_result : option exn;
  close_result : option exn
}.

Definition is_KeyboardInterrupt (e : exn) : bool :=
  match e with KeyboardInterrupt => true | _ => false end.

Definition main (fuel : nat) (cfg : Config) (w : world) : M unit :=
  if (API_KEY cfg =? "")%string then ret tt
  else
    producer <- create_kafka_producer cfg (connect w) ;;
    match producer with
    | None => ret tt
    | Some producer =>
        try_finally
          (try_excepts
             (main_loop fuel cfg producer (cycles w))
             [ (is_KeyboardInterrupt, fun _ => ret tt);
               (is_Exception, fun _ => ret tt) ])
          (call (EvFlush 10) (flush_result w) ;;;
           call (EvClose 10) (close_result w))
    end.

(** ** Observations on traces *)

(** The page requests of a trace, in order. *)
Fixpoint page_requests (tr : list event) : list params :=
  match tr with
  | [] => []
  | EvGet _ p _ :: rest => p :: page_requests rest
  | _ :: rest => page_requests rest
  end.

(** The messages submitted to the broker, in order. *)
Fixpoint published (tr : list event) : list json :=
  match tr with
  | [] => []
  | EvSend _ v :: rest => v :: published rest
  | _ :: rest => published rest
  end.

(** The sleeps of a trace, in order. *)
Fixpoint sleeps (tr : list event) : list Q :=
  match tr with
  | [] => []
  | EvSleep s :: rest => s :: sleeps rest
  | _ :: rest => sleeps rest
  end.

Definition is_teardown (ev : event) : bool :=
  match ev with EvFlush _ | EvClose _ => true | _ => false end.

(** [m[k]] of a message. *)
Definition field (k : string) (m : json) : option json :=
  match m with JObj kvs => assoc k kvs | _ => None end.

(** ** A sample configuration and sample environments *)

Definition sample_cfg : Config :=
  {| KAFKA_BOOTSTRAP_SERVERS := "daa-kafka1:9092, daa-kafka2:9093";
     KAFKA_TOPIC := "stock-data";
     API_BASE_URL := "https://apis.data.go.kr/1160100/service/GetStockSecuritiesInfoService";
     API_KEY := "k3y";
     API_ENDPOINT := "getStockPriceInfo";
     COLLECTION_INTERVAL_SECONDS := 86400 |}.

Definition body_of (items : json) : json :=
  JObj [("response", JObj [("body", JObj [("items", JObj [("item", items)])])])].

Definition record (n : Z) : json := JObj [("srtnCd", JNum n)].

(** [k] records numbered from [from]. *)
Definition records (from : Z) (k : nat) : list json :=
  map (fun i => record (from + Z.of_nat i)) (seq 0 k).

(** ** The fetch loop, one page at a time *)

(** What the request for one page leads to: the loop stops and returns
    (empty page, or an error that [except Exception] catches), it goes on
    with more records, or an exception leaves the function. *)
Inductive page_step : Type :=
| StepStop
| StepMore (new : list json)
| StepRaise (e : exn).

Definition caught (e : exn) : page_step :=
  if is_Exception e then StepStop else StepRaise e.

Definition classify (r : http_result) : page_step :=
  match r with
  | Raises e => caught e
  | Body data =>
      match items_of data with
      | inl e => caught e
      | inr items =>
          if truthy items then
            match py_iter items with
            | inl e => caught e
            | inr new => StepMore new
            end
          else StepStop
      end
  end.

(** The value found at the item path of a page that parsed. *)
Definition page_items (r : http_result) : option json :=
  match r with
  | Body data => match items_of data with inr v => Some v | inl _ => None end
  | Raises _ => None
  end.

(** The request fails with an error the loop catches: the call, the status
    check or the parse raises; the item path does not lead through dicts;
    or what is found there cannot be appended. *)
Definition request_fails (r : http_result) : bool :=
  match r with
  | Raises e => is_Exception e
  | Body data =>
      match items_of data with
      | inl e => is_Exception e
      | inr items =>
          truthy items &&
          match py_iter items with inl e => is_Exception e | inr _ => false end
      end
  end.

(** The messages the loop of [main] builds for [all_data], from the [i]-th
    record on. *)
Fixpoint envelopes (cfg : Config) (env : cycle_env) (today : datetime)
    (i : nat) (all_data : list json) : list json :=
  match all_data with
  | [] => []
  | item :: rest =>
      message cfg today (now_isoformat env i) item
      :: envelopes cfg env today (S i) rest
  end.

(** The publish succeeds or fails with an error that [send_to_kafka]
    catches: the call returns [True] or [False]. *)
Definition publish_returns (r : send_result) : bool :=
  match r with
  | SendRaises e => is_Exception e
  | Sent (GetRaises e) => is_Exception e
  | Sent (Delivered _ _) => true
  end.

(** A date in the [YYYYMMDD] form of the [basDt] parameter. *)
Definition yyyymmdd (d : datetime) : string :=
  (zfill 4 (str (year d)) ++ zfill 2 (str (month d)) ++ zfill 2 (str (day d)))%string.

(** A source with two pages of 100 records and then an empty page, met on
    the day [d] by a broker that accepts everything. *)
Definition two_pages (d : datetime) : cycle_env :=
  {| today := d;
     source := fun k =>
       if k =? 1 then Body (body_of (JArr (records 0 100)))
       else if k =? 2 then Body (body_of (JArr (records 100 100)))
       else Body (body_of (JArr []));
     pause := fun _ => None;
     now_isoformat := fun _ => (strftime_Y_m_d d ++ "T09:00:00.000000")%string;
     broker := fun i => Sent (Delivered 0 (Z.of_nat i));
     interval_sleep := None |}.

(** The events of the fetch, of the publish, and of the loop as a whole. *)
Definition is_fetch_event (ev : event) : bool :=
  match ev with EvGet _ _ _ | EvSleep _ => true | _ => false end.

Definition is_publish_event (ev : event) : bool :=
  match ev with EvSend _ _ | EvFutureGet _ => true | _ => false end.

Definition is_loop_event (ev : event) : bool :=
  is_fetch_event ev || is_publish_event ev.

(** One page of three records on Tuesday 2025-04-08; the broker does not
    confirm the second record in time and refuses the third. *)
Definition flaky_broker : cycle_env :=
  {| today := mkDate 2025 4 8;
     source := fun k =>
       if k =? 1 then Body (body_of (JArr (records 0 3)))
       else Body (body_of (JArr []));
     pause := fun _ => None;
     now_isoformat := fun _ => "2025-04-08T09:00:00.000000";
     broker := fun i =>
       match i with
       | 0%nat => Sent (Delivered 0 0)
       | 1%nat => Sent (GetRaises KafkaError)
       | _ => SendRaises (Exception "BufferError")
       end;
     interval_sleep := Some KeyboardInterrupt |}.

(** No teardown call occurs in the trace. *)
Definition no_teardown (tr : list event) : bool :=
  forallb (fun ev => negb (is_teardown ev)) tr.

(** A source whose first page has three records and whose second request
    times out. *)
Definition timeout_on_second (k : Z) : http_result :=
  if k =? 1 then Body (body_of (JArr (records 0 3)))
  else Raises (Exception "ReadTimeout").

(** A Saturday on which the sleep of the iteration ends as [e] says. *)
Definition saturday (e : option exn) : cycle_env :=
  {| today := mkDate 2025 4 5;
     source := fun _ => Raises (Exception "ConnectionError");
     pause := fun _ => None;
     now_isoformat := fun _ => "2025-04-05T09:00:00.000000";
     broker := fun _ => SendRaises KafkaError;
     interval_sleep := e |}.

(** The broker is there; the process is observed for the iterations
    [cycles], and the teardown calls return. *)
Definition connected (cycles : list cycle_env) : world :=
  {| connect := None; cycles := cycles;
     flush_result := None; close_result := None |}.

(** The trace of [n] pages served from page [k] on, each followed by the
    pause. *)
Fixpoint paged_from (cfg : Config) (api_url basDt : string) (num_of_rows : Z)
    (k : Z) (n : nat) : list event :=
  match n with
  | O => []
  | S n' =>
      EvGet api_url (request_params cfg basDt num_of_rows k) 20
      :: EvSleep (3 # 10)
      :: paged_from cfg api_url basDt num_of_rows (k + 1) n'
  end.

(** The body is a dict in which a key of the path
    response / body / items / item is missing, every dict before it being
    there. *)
Definition path_absent (data : json) : bool :=
  match data with
  | JObj kvs =>
      match assoc "response" kvs with
      | None => true
      | Some (JObj kvs1) =>
          match assoc "body" kvs1 with
          | None => true
          | Some (JObj kvs2) =>
              match assoc "items" kvs2 with
              | None => true
              | Some (JObj kvs3) =>
                  match assoc "item" kvs3 with None => true | Some _ => false end
              | Some _ => false
              end
          | Some _ => false
          end
      | Some _ => false
      end
  | _ => false
  end.

(** The topics of the messages submitted to the broker, in order. *)
Fixpoint send_topics (tr : list event) : list string :=
  match tr with
  | [] => []
  | EvSend t _ :: rest => t :: send_topics rest
  | _ :: rest => send_topics rest
  end.

Definition is_producer_event (ev : event) : bool :=
  match ev with EvKafkaProducer _ => true | _ => false end.

(** [w] is one character accepted by [p1], [p2] or [p3]; [l] begins with
    one. *)
Definition chunk3 (p1 : ascii -> bool) (p2 : ascii -> ascii -> bool)
    (p3 : ascii -> ascii -> ascii -> bool) (w : list ascii) : bool :=
  match w with
  | [a] => p1 a
  | [a; b] => p2 a b
  | [a; b; c] => p3 a b c
  | _ => false
  end.

Definition leading3 (p1 : ascii -> bool) (p2 : ascii -> ascii -> bool)
    (p3 : ascii -> ascii -> ascii -> bool) (l : list ascii) : bool :=
  match l with
  | a :: rest =>
      p1 a ||
      match rest with
      | b :: rest' =>
          p2 a b || match rest' with c :: _ => p3 a b c | [] => false end
      | [] => false
      end
  | [] => false
  end.

(** [w] is the UTF-8 encoding of one whitespace character; [l] begins, [l]
    ends with one. *)
Definition is_space_char : list ascii -> bool := chunk3 is_space is_space2 is_space3.
Definition leading_space : list ascii -> bool := leading3 is_space is_space2 is_space3.
Definition trailing_space (l : list ascii) : bool :=
  leading3 is_space (fun b a => is_space2 a b) (fun c b a => is_space3 a b c) (rev l).

(** A no-break space (U+00A0) and an em space (U+2003). *)
Definition nbsp : string := String (ascii_of_nat 194) (String (ascii_of_nat 160) "").
Definition emsp : string :=
  String (ascii_of_nat 226) (String (ascii_of_nat 128) (String (ascii_of_nat 131) "")).

(** The string has a comma; it starts, it ends with whitespace. *)
Definition has_comma (s : string) : bool :=
  existsb (fun c => Ascii.eqb c ","%char) (list_ascii_of_string s).



(** A Monday on which the first request fails. *)
Definition source_down : cycle_env :=
  {| today := mkDate 2025 4 7;
     source := fun _ => Raises (Exception "ConnectionError");
     pause := fun _ => None;
     now_isoformat := fun _ => "2025-04-07T09:00:00.000000";
     broker := fun _ => Sent (Delivered 0 0);
     interval_sleep := None |}.

(** A source that has a record on every page. *)
Definition endless (k : Z) : http_result := Body (body_of (JArr [record k])).

(** * Properties *)

Example split_strip :
  map strip (split_comma (KAFKA_BOOTSTRAP_SERVERS sample_cfg))
  = ["daa-kafka1:9092"; "daa-kafka2:9093"]%string.
Proof. reflexivity. Qed.

Example monday : weekday (mkDate 2025 4 7) = 0 /\ weekday (mkDate 2025 4 5) = 5
  /\ weekday (mkDate 2026 11 3) = 1 /\ weekday (mkDate 2024 2 29) = 3.
Proof. repeat split; reflexivity. Qed.

Example strftime_sample :
  strftime_Y_m_d (mkDate 2025 4 7) = "2025-04-07"%string.
Proof. reflexivity. Qed.

Section FetchFacts.
Variable cfg : Config.
Variable source : Z -> http_result.
Variable pause : Z -> option exn.
Variables api_url basDt : string.
Variable num_of_rows : Z.

Let get (k : Z) : event :=
  EvGet api_url (request_params cfg basDt num_of_rows k) 20.
Let loop := fetch_loop cfg source pause.
Let paged := paged_from cfg api_url basDt num_of_rows.

Lemma fetch_loop_step fuel k coll :
  loop (S fuel) api_url basDt num_of_rows k coll =
  match classify (source k) with
  | StepStop => ([get k], Return coll)
  | StepRaise e => ([get k], Raise e)
  | StepMore new =>
      match pause k with
      | Some e => ([get k; EvSleep (3 # 10)], Raise e)
      | None =>
          let (tr, o) := loop fuel api_url basDt num_of_rows (k + 1) (coll ++ new) in
          (get k :: EvSleep (3 # 10) :: tr, o)
      end
  end.
Proof.
  unfold loop, get; cbn [fetch_loop].
  unfold try_page, requests_get, classify, caught.
  destruct (source k) as [e | data]; cbn.
  - destruct (is_Exception e); reflexivity.
  - destruct (items_of data) as [e | items]; cbn.
    + destruct (is_Exception e); reflexivity.
    + destruct (truthy items); cbn; [ | reflexivity ].
      destruct (py_iter items) as [e | new]; cbn.
      * destruct (is_Exception e); reflexivity.
      * destruct (pause k); cbn; [ reflexivity | ].
        destruct (fetch_loop _ _ _ _ _ _ _ _ _); reflexivity.
Qed.

Lemma page_requests_paged n : forall k tl,
  page_requests (paged k n ++ tl) =
  map (fun i => request_params cfg basDt num_of_rows (k + Z.of_nat i)) (seq 0 n)
  ++ page_requests tl.
Proof.
  induction n as [| n IH]; intros k tl; [ reflexivity | ].
  unfold paged; cbn [paged_from app page_requests get seq map]; fold (paged (k + 1) n).
  rewrite IH, Z.add_0_r, <- seq_shift, map_map. f_equal. f_equal.
  apply map_ext; intro i. f_equal. lia.
Qed.

(** [n] pages of records, then a page on which the loop stops. *)
Lemma fetch_loop_pages (pages : list (list json)) : forall fuel k coll,
  (forall i recs, nth_error pages i = Some recs ->
     classify (source (k + Z.of_nat i)) = StepMore recs) ->
  classify (source (k + Z.of_nat (List.length pages))) = StepStop ->
  (forall i, (i < List.length pages)%nat -> pause (k + Z.of_nat i) = None) ->
  (List.length pages < fuel)%nat ->
  loop fuel api_url basDt num_of_rows k coll =
  (paged k (List.length pages) ++ [get (k + Z.of_nat (List.length pages))],
   Return (coll ++ List.concat pages)).
Proof.
  induction pages as [| recs pages IH]; intros fuel k coll Hp He Hs Hf;
    (destruct fuel as [| fuel]; [ cbn in Hf; lia | ]);
    rewrite fetch_loop_step.
  - cbn in He |- *. rewrite Z.add_0_r in *. rewrite He, app_nil_r. reflexivity.
  - pose proof (Hp 0%nat recs eq_refl) as H0.
    pose proof (Hs 0%nat ltac:(cbn; lia)) as H1.
    cbn in H0, H1. rewrite Z.add_0_r in H0, H1. rewrite H0, H1.
    rewrite (IH fuel (k + 1) (coll ++ recs)).
    + unfold paged; cbn [List.length paged_from List.concat app].
      rewrite <- app_assoc.
      replace (k + 1 + Z.of_nat (List.length pages))
        with (k + Z.of_nat (S (List.length pages))) by lia.
      reflexivity.
    + intros i r Hi. replace (k + 1 + Z.of_nat i) with (k + Z.of_nat (S i)) by lia.
      apply Hp. exact Hi.
    + replace (k + 1 + Z.of_nat (List.length pages))
        with (k + Z.of_nat (List.length (recs :: pages))) by (cbn [List.length]; lia).
      exact He.
    + intros i Hi. replace (k + 1 + Z.of_nat i) with (k + Z.of_nat (S i)) by lia.
      apply Hs. cbn; lia.
    + cbn in Hf; lia.
Qed.

(** Whatever the source and the pauses do, the requests of the loop are
    for consecutive pages from [k] on, all with the same page size. *)
Lemma fetch_loop_requests fuel : forall k coll,
  exists m, (m <= fuel)%nat /\
    page_requests (fst (loop fuel api_url basDt num_of_rows k coll)) =
    map (fun i => request_params cfg basDt num_of_rows (k + Z.of_nat i)) (seq 0 m).
Proof.
  induction fuel as [| fuel IH]; intros k coll.
  - exists 0%nat. split; [ lia | reflexivity ].
  - rewrite fetch_loop_step.
    assert (H1 : exists m, (m <= S fuel)%nat /\
              [request_params cfg basDt num_of_rows k] =
              map (fun i => request_params cfg basDt num_of_rows (k + Z.of_nat i)) (seq 0 m)).
    { exists 1%nat. split; [ lia | cbn; rewrite Z.add_0_r; reflexivity ]. }
    destruct (classify (source k)) as [ | new | e ]; try exact H1.
    destruct (pause k); [ exact H1 | ].
    destruct (IH (k + 1) (coll ++ new)) as [m [Hm Hr]].
    destruct (loop fuel api_url basDt num_of_rows (k + 1) (coll ++ new)) as [tr o].
    exists (S m). split; [ lia | ].
    cbn [fst page_requests get seq map] in Hr |- *. rewrite Hr, Z.add_0_r.
    f_equal. rewrite <- seq_shift, map_map.
    apply map_ext; intro i. f_equal. lia.
Qed.
End FetchFacts.

Lemma classify_records r recs :
  recs <> [] -> page_items r = Some (JArr recs) -> classify r = StepMore recs.
Proof.
  intros Hne H. destruct r as [e | data]; [ discriminate | ].
  cbn in H |- *. destruct (items_of data) as [e | v]; [ discriminate | ].
  injection H as ->. destruct recs; [ congruence | reflexivity ].
Qed.

Lemma classify_empty r v :
  page_items r = Some v -> truthy v = false -> classify r = StepStop.
Proof.
  intros H Hv. destruct r as [e | data]; [ discriminate | ].
  cbn in H |- *. destruct (items_of data) as [e | v']; [ discriminate | ].
  injection H as ->. rewrite Hv. reflexivity.
Qed.

Lemma classify_fails r : request_fails r = true -> classify r = StepStop.
Proof.
  unfold request_fails, classify, caught. destruct r as [e | data].
  - intros ->. reflexivity.
  - destruct (items_of data) as [e | v].
    + intros ->. reflexivity.
    + destruct (truthy v); [ | discriminate ].
      destruct (py_iter v) as [e | new]; [ | discriminate ].
      cbn. intros ->. reflexivity.
Qed.

Lemma pages_from_one {A} (f : Z -> A) m :
  map (fun i => f (1 + Z.of_nat i)) (seq 0 m) = map (fun k => f (Z.of_nat k)) (seq 1 m).
Proof.
  rewrite <- seq_shift, map_map. apply map_ext; intro i. f_equal. lia.
Qed.

(** The requests of a fetch that is served [n] pages and then stops at page
    [n + 1], and what it returns. *)
Lemma fetch_stops_after (cfg : Config) (source : Z -> http_result)
    (pause : Z -> option exn) (pages : list (list json)) (fuel : nat) :
  API_KEY cfg <> ""%string ->
  (forall i recs, nth_error pages i = Some recs ->
     classify (source (Z.of_nat (S i))) = StepMore recs) ->
  classify (source (Z.of_nat (S (List.length pages)))) = StepStop ->
  (forall i, (i < List.length pages)%nat -> pause (Z.of_nat (S i)) = None) ->
  (List.length pages < fuel)%nat ->
  exists tr,
    get_all_stock_price_data cfg source pause fuel = (tr, Return (List.concat pages))
    /\ page_requests tr =
       map (fun k => request_params cfg "20250407" 100 (Z.of_nat k))
           (seq 1 (S (List.length pages))).
Proof.
  intros Hkey Hp He Hs Hf. unfold get_all_stock_price_data.
  destruct (String.eqb_spec (API_KEY cfg) "") as [E | _]; [ contradiction | ].
  rewrite (fetch_loop_pages cfg source pause _ _ _ pages fuel 1 []).
  - eexists. split; [ reflexivity | ].
    rewrite page_requests_paged. cbn [page_requests].
    rewrite <- pages_from_one.
    replace (S (List.length pages)) with (List.length pages + 1)%nat by lia.
    rewrite seq_app, map_app. cbn. reflexivity.
  - intros i recs Hi. replace (1 + Z.of_nat i) with (Z.of_nat (S i)) by lia. auto.
  - replace (1 + Z.of_nat (List.length pages))
      with (Z.of_nat (S (List.length pages))) by lia. exact He.
  - intros i Hi. replace (1 + Z.of_nat i) with (Z.of_nat (S i)) by lia. auto.
  - exact Hf.
Qed.

(** C1. When the source serves [n] non-empty pages of records (pages 1..n)
    and then a page with zero records, no request failing and no pause being
    interrupted, [get_all_stock_price_data] (run with a configured API key)
    issues exactly [n + 1] page requests, for pages 1, 2, ..., n + 1 in that
    order, and returns normally the concatenation of the [n] pages' records
    in request order: the empty page ends the fetch as a success. *)
Theorem fetch_all_pages_then_empty_page (cfg : Config)
    (source : Z -> http_result) (pause : Z -> option exn)
    (pages : list (list json)) (fuel : nat) :
  API_KEY cfg <> ""%string ->
  (forall i recs, nth_error pages i = Some recs ->
     recs <> [] /\ page_items (source (Z.of_nat (S i))) = Some (JArr recs)) ->
  (exists v, page_items (source (Z.of_nat (S (List.length pages)))) = Some v
             /\ truthy v = false) ->
  (forall i, (i < List.length pages)%nat -> pause (Z.of_nat (S i)) = None) ->
  (List.length pages < fuel)%nat ->
  exists tr,
    get_all_stock_price_data cfg source pause fuel = (tr, Return (List.concat pages))
    /\ page_requests tr =
       map (fun k => request_params cfg "20250407" 100 (Z.of_nat k))
           (seq 1 (S (List.length pages)))
    /\ List.length (page_requests tr) = S (List.length pages).
Proof.
  intros Hkey Hp [v [Hv Hf]] Hs Hfuel.
  destruct (fetch_stops_after cfg source pause pages fuel Hkey) as [tr [Hr Hq]];
    try assumption.
  - intros i recs Hi. destruct (Hp i recs Hi). now apply classify_records.
  - now apply classify_empty with v.
  - exists tr. repeat split; try assumption.
    rewrite Hq, length_map, length_seq. reflexivity.
Qed.

(** C2. When the source serves pages 1..k-1 as non-empty pages of records
    and the request for page [k] fails with an error (the call, the status
    check or the parse raises, or the body is malformed),
    [get_all_stock_price_data] returns normally (it raises nothing) exactly
    the concatenation of the records of pages 1..k-1 (the empty list when
    k = 1), and its requests are those for pages 1..k: none follows the
    failed one. *)
Theorem fetch_stops_at_failed_page (cfg : Config)
    (source : Z -> http_result) (pause : Z -> option exn)
    (pages : list (list json)) (fuel : nat) :
  API_KEY cfg <> ""%string ->
  (forall i recs, nth_error pages i = Some recs ->
     recs <> [] /\ page_items (source (Z.of_nat (S i))) = Some (JArr recs)) ->
  request_fails (source (Z.of_nat (S (List.length pages)))) = true ->
  (forall i, (i < List.length pages)%nat -> pause (Z.of_nat (S i)) = None) ->
  (List.length pages < fuel)%nat ->
  exists tr,
    get_all_stock_price_data cfg source pause fuel = (tr, Return (List.concat pages))
    /\ page_requests tr =
       map (fun k => request_params cfg "20250407" 100 (Z.of_nat k))
           (seq 1 (S (List.length pages)))
    /\ last (map pageNo (page_requests tr)) ""%string
       = str (Z.of_nat (S (List.length pages))).
Proof.
  intros Hkey Hp Hfail Hs Hfuel.
  destruct (fetch_stops_after cfg source pause pages fuel Hkey) as [tr [Hr Hq]];
    try assumption.
  - intros i recs Hi. destruct (Hp i recs Hi). now apply classify_records.
  - now apply classify_fails.
  - exists tr. repeat split; try assumption.
    rewrite Hq, map_map. cbn [pageNo request_params].
    replace (S (List.length pages)) with (List.length pages + 1)%nat by lia.
    rewrite seq_app, map_app. cbn [seq map]. rewrite last_last.
    f_equal. lia.
Qed.

(** The requests of a fetch are those for pages 1..m, for some m. *)
Lemma get_all_requests (cfg : Config) (source : Z -> http_result)
    (pause : Z -> option exn) (fuel : nat) :
  exists m,
    page_requests (fst (get_all_stock_price_data cfg source pause fuel))
    = map (fun k => request_params cfg "20250407" 100 (Z.of_nat k)) (seq 1 m).
Proof.
  unfold get_all_stock_price_data.
  destruct (API_KEY cfg =? "")%string.
  - exists 0%nat. reflexivity.
  - destruct (fetch_loop_requests cfg source pause
                (API_BASE_URL cfg ++ "/" ++ API_ENDPOINT cfg)%string
                "20250407" 100 fuel 1 []) as [m [_ Hm]].
    exists m. rewrite Hm. apply pages_from_one.
Qed.

(** C9. Within one fetch, whatever the source and the pauses do and however
    long the fetch is observed, the page requests are those for pages
    1, 2, ..., m in that order for some m: the first request (if any) asks
    for page 1, every further request for the page after the one before,
    and all of them with the page size 100. *)
Theorem page_request_invariant (cfg : Config) (source : Z -> http_result)
    (pause : Z -> option exn) (fuel : nat) :
  let reqs := page_requests (fst (get_all_stock_price_data cfg source pause fuel)) in
  (exists m, reqs = map (fun k => request_params cfg "20250407" 100 (Z.of_nat k))
                        (seq 1 m))
  /\ (forall p, nth_error reqs 0 = Some p -> pageNo p = "1"%string)
  /\ (forall i p q, nth_error reqs i = Some p -> nth_error reqs (S i) = Some q ->
        exists k, pageNo p = str k /\ pageNo q = str (k + 1))
  /\ (forall p, In p reqs -> numOfRows p = "100"%string).
Proof.
  intro reqs.
  pose proof (get_all_requests cfg source pause fuel) as H. fold reqs in H.
  split; [ exact H | ].
  destruct H as [m ->].
  split; [ | split ].
  - intros p Hp. rewrite nth_error_map, nth_error_seq in Hp.
    destruct (0 <? m)%nat; [ | discriminate ].
    injection Hp as <-. reflexivity.
  - intros i p q Hp Hq. rewrite nth_error_map, nth_error_seq in Hp, Hq.
    destruct (i <? m)%nat; [ | discriminate ].
    destruct (S i <? m)%nat; [ | discriminate ].
    injection Hp as <-. injection Hq as <-.
    exists (Z.of_nat (1 + i)). cbn [pageNo request_params]. split; [ reflexivity | ].
    f_equal. lia.
  - intros p Hp. apply in_map_iff in Hp. destruct Hp as [k [<- _]]. reflexivity.
Qed.

(** ** Traces of the parts of a cycle *)

Lemma bind_eq {A B} (m : M A) (k : A -> M B) :
  bind m k =
  (fst m ++ match snd m with Return a => fst (k a) | _ => [] end,
   match snd m with
   | Return a => snd (k a)
   | Raise e => Raise e
   | Pending => Pending
   end).
Proof.
  destruct m as [tr [a | e |]]; cbn; rewrite ?app_nil_r; try reflexivity.
  destruct (k a); reflexivity.
Qed.

Lemma published_app tr tr' : published (tr ++ tr') = published tr ++ published tr'.
Proof.
  induction tr as [| ev tr IH]; [ reflexivity | ].
  destruct ev; cbn; rewrite IH; reflexivity.
Qed.

Lemma page_requests_app tr tr' :
  page_requests (tr ++ tr') = page_requests tr ++ page_requests tr'.
Proof.
  induction tr as [| ev tr IH]; [ reflexivity | ].
  destruct ev; cbn; rewrite IH; reflexivity.
Qed.

Lemma fetch_events_unpublished tr :
  forallb is_fetch_event tr = true -> published tr = [].
Proof.
  induction tr as [| ev tr IH]; [ reflexivity | ].
  cbn. destruct ev; cbn; try discriminate; exact IH.
Qed.

Lemma publish_events_unrequested tr :
  forallb is_publish_event tr = true -> page_requests tr = [].
Proof.
  induction tr as [| ev tr IH]; [ reflexivity | ].
  cbn. destruct ev; cbn; try discriminate; exact IH.
Qed.

Lemma loop_events_of_fetch tr :
  forallb is_fetch_event tr = true -> forallb is_loop_event tr = true.
Proof.
  induction tr as [| ev tr IH]; [ reflexivity | ].
  cbn. unfold is_loop_event at 1. intros [-> H]%andb_true_iff. cbn. auto.
Qed.

Lemma loop_events_of_publish tr :
  forallb is_publish_event tr = true -> forallb is_loop_event tr = true.
Proof.
  induction tr as [| ev tr IH]; [ reflexivity | ].
  cbn. unfold is_loop_event at 1. intros [-> H]%andb_true_iff.
  rewrite orb_true_r. cbn. auto.
Qed.

Lemma fetch_loop_events cfg source pause url d rows fuel : forall k coll,
  forallb is_fetch_event (fst (fetch_loop cfg source pause fuel url d rows k coll)) = true.
Proof.
  induction fuel as [| fuel IH]; intros k coll; [ reflexivity | ].
  rewrite fetch_loop_step.
  destruct (classify (source k)); try reflexivity.
  destruct (pause k); [ reflexivity | ].
  specialize (IH (k + 1) (coll ++ new)).
  destruct (fetch_loop _ _ _ _ _ _ _ _ _). exact IH.
Qed.

Lemma get_all_events cfg source pause fuel :
  forallb is_fetch_event (fst (get_all_stock_price_data cfg source pause fuel)) = true.
Proof.
  unfold get_all_stock_price_data. destruct (API_KEY cfg =? "")%string;
    [ reflexivity | apply fetch_loop_events ].
Qed.

(** What one call of [send_to_kafka] does, case by case. *)
Lemma send_to_kafka_cases cfg producer data r :
  send_to_kafka cfg producer data r =
  if truthy data then
    match r with
    | SendRaises e =>
        ([EvSend (KAFKA_TOPIC cfg) data],
         if is_Exception e then Return false else Raise e)
    | Sent (GetRaises e) =>
        ([EvSend (KAFKA_TOPIC cfg) data; EvFutureGet 15],
         if is_Exception e then Return false else Raise e)
    | Sent (Delivered _ _) =>
        ([EvSend (KAFKA_TOPIC cfg) data; EvFutureGet 15], Return true)
    end
  else ([], Return false).
Proof.
  unfold send_to_kafka. destruct (truthy data); [ | reflexivity ].
  destruct r as [e | [e | p o]]; cbn; try reflexivity; destruct e; reflexivity.
Qed.

Lemma send_to_kafka_events cfg producer data r :
  forallb is_publish_event (fst (send_to_kafka cfg producer data r)) = true.
Proof.
  rewrite send_to_kafka_cases.
  destruct (truthy data); [ | reflexivity ].
  destruct r as [e | [e | p o]]; reflexivity.
Qed.

Lemma publish_from_events cfg producer env d all_data : forall i,
  forallb is_publish_event (fst (publish_from cfg producer env d i all_data)) = true.
Proof.
  induction all_data as [| item rest IH]; intro i; [ reflexivity | ].
  cbn [publish_from]. rewrite bind_eq. cbn [fst].
  rewrite forallb_app, send_to_kafka_events.
  destruct (snd (send_to_kafka _ _ _ _)); try reflexivity. apply IH.
Qed.

(** The loop over the records when every publish returns. *)
Lemma publish_from_returns cfg producer env d all_data : forall i,
  (forall j, (j < List.length all_data)%nat ->
     publish_returns (broker env (i + j)) = true) ->
  snd (publish_from cfg producer env d i all_data) = Return tt
  /\ published (fst (publish_from cfg producer env d i all_data))
     = envelopes cfg env d i all_data.
Proof.
  induction all_data as [| item rest IH]; intros i H; [ split; reflexivity | ].
  cbn [publish_from envelopes]. rewrite bind_eq. cbn [fst snd].
  destruct (IH (S i)) as [IHo IHp].
  { intros j Hj. replace (S i + j)%nat with (i + S j)%nat by lia.
    apply H. cbn; lia. }
  pose proof (H 0%nat ltac:(cbn; lia)) as H0. rewrite Nat.add_0_r in H0.
  rewrite send_to_kafka_cases. cbn [truthy message].
  destruct (broker env i) as [e | [e | p o]]; cbn in H0; try rewrite H0;
    cbn [fst snd app published]; rewrite ?published_app; cbn [published app];
    rewrite IHo, IHp; split; reflexivity.
Qed.

Lemma envelopes_length cfg env d all_data : forall i,
  List.length (envelopes cfg env d i all_data) = List.length all_data.
Proof.
  induction all_data as [| item rest IH]; intro i; [ reflexivity | ].
  cbn. f_equal. apply IH.
Qed.

Lemma envelopes_data cfg env d all_data : forall i,
  map (field "data") (envelopes cfg env d i all_data) = map Some all_data.
Proof.
  induction all_data as [| item rest IH]; intro i; [ reflexivity | ].
  cbn [envelopes map]. rewrite IH. reflexivity.
Qed.

Lemma envelopes_nth cfg env d all_data : forall i j item,
  nth_error all_data j = Some item ->
  nth_error (envelopes cfg env d i all_data) j
  = Some (message cfg d (now_isoformat env (i + j)) item).
Proof.
  induction all_data as [| x rest IH]; intros i j item H.
  - destruct j; discriminate.
  - destruct j as [| j]; cbn in H |- *.
    + injection H as ->. rewrite Nat.add_0_r. reflexivity.
    + rewrite (IH (S i) j item H). do 3 f_equal. lia.
Qed.

(** ** One iteration of the scheduler loop *)

Lemma cycle_trading_day fuel cfg producer env :
  weekday (today env) < 5 ->
  cycle fuel cfg producer env =
  (all_data <- get_all_stock_price_data cfg (source env) (pause env) fuel ;;
   publish_from cfg producer env (today env) 0 all_data ;;;
   sleep (inject_Z (COLLECTION_INTERVAL_SECONDS cfg)) (interval_sleep env)).
Proof.
  intro H. unfold cycle. destruct (Z.leb_spec 5 (weekday (today env))); [ lia | ].
  rewrite !bind_eq. destruct (snd (get_all_stock_price_data _ _ _ _)) as [[| x l] | e |];
    reflexivity.
Qed.

Lemma cycle_weekend fuel cfg producer env :
  5 <= weekday (today env) ->
  cycle fuel cfg producer env =
  ([EvSleep (inject_Z (COLLECTION_INTERVAL_SECONDS cfg))],
   match interval_sleep env with None => Return tt | Some e => Raise e end).
Proof.
  intro H. unfold cycle. destruct (Z.leb_spec 5 (weekday (today env))); [ | lia ].
  reflexivity.
Qed.

Lemma sleep_events s r : forallb is_loop_event (fst (sleep s r)) = true.
Proof. reflexivity. Qed.

Lemma cycle_events fuel cfg producer env :
  forallb is_loop_event (fst (cycle fuel cfg producer env)) = true.
Proof.
  destruct (Z.lt_ge_cases (weekday (today env)) 5) as [H | H].
  - rewrite cycle_trading_day by exact H. rewrite bind_eq. cbn [fst].
    rewrite forallb_app, (loop_events_of_fetch _ (get_all_events _ _ _ _)).
    destruct (snd (get_all_stock_price_data _ _ _ _)) as [all_data | e |];
      try reflexivity.
    rewrite bind_eq. cbn [fst].
    rewrite forallb_app, (loop_events_of_publish _ (publish_from_events _ _ _ _ _ _)).
    destruct (snd (publish_from _ _ _ _ _ _)); reflexivity.
  - rewrite cycle_weekend by exact H. reflexivity.
Qed.

Lemma main_loop_events fuel cfg producer cycles :
  forallb is_loop_event (fst (main_loop fuel cfg producer cycles)) = true.
Proof.
  induction cycles as [| env rest IH]; [ reflexivity | ].
  cbn [main_loop]. rewrite bind_eq. cbn [fst].
  rewrite forallb_app, cycle_events.
  destruct (snd (cycle _ _ _ _)); try reflexivity. exact IH.
Qed.

(** The loop is [while True] with no [break]: it never returns. *)
Lemma main_loop_never_returns fuel cfg producer cycles a :
  snd (main_loop fuel cfg producer cycles) <> Return a.
Proof.
  induction cycles as [| env rest IH]; [ discriminate | ].
  cbn [main_loop]. rewrite bind_eq. cbn [snd].
  destruct (snd (cycle _ _ _ _)); [ exact IH | discriminate | discriminate ].
Qed.

(** Every request of a cycle asks for the same date. *)
Lemma cycle_requests_basDt fuel cfg producer env p :
  In p (page_requests (fst (cycle fuel cfg producer env))) ->
  basDt p = "20250407"%string.
Proof.
  destruct (Z.lt_ge_cases (weekday (today env)) 5) as [H | H].
  - rewrite cycle_trading_day by exact H. rewrite bind_eq. cbn [fst].
    rewrite page_requests_app.
    destruct (get_all_requests cfg (source env) (pause env) fuel) as [m Hm].
    rewrite Hm.
    assert (Hrest : forall o, page_requests
              match o with
              | Return all_data =>
                  fst (publish_from cfg producer env (today env) 0 all_data ;;;
                       sleep (inject_Z (COLLECTION_INTERVAL_SECONDS cfg)) (interval_sleep env))
              | _ => []
              end = []).
    { intros [all_data | e |]; try reflexivity.
      rewrite bind_eq. cbn [fst]. rewrite page_requests_app.
      rewrite (publish_events_unrequested _ (publish_from_events _ _ _ _ _ _)).
      destruct (snd (publish_from _ _ _ _ _ _)); reflexivity. }
    rewrite Hrest, app_nil_r.
    intros [k [<- _]]%in_map_iff. reflexivity.
  - rewrite cycle_weekend by exact H. intros [].
Qed.

(** C5. On a trading day, when the fetch returns [all_data] and every
    publish returns (success, or a failure that [send_to_kafka] catches),
    the messages submitted to the broker in the cycle are exactly the
    envelopes of the records of [all_data], one per record and in the order
    of [all_data]: there are as many as records, and the [data] field of the
    i-th is the i-th record.  A failed publish is not repeated; the loop goes
    on with the next record. *)
Theorem publish_each_record_once (fuel : nat) (cfg : Config)
    (producer : KafkaProducer) (env : cycle_env)
    (tr_fetch : list event) (all_data : list json) :
  weekday (today env) < 5 ->
  get_all_stock_price_data cfg (source env) (pause env) fuel
    = (tr_fetch, Return all_data) ->
  (forall i, (i < List.length all_data)%nat -> publish_returns (broker env i) = true) ->
  let sent := published (fst (cycle fuel cfg producer env)) in
  sent = envelopes cfg env (today env) 0 all_data
  /\ List.length sent = List.length all_data
  /\ map (field "data") sent = map Some all_data
  /\ (forall i item, nth_error all_data i = Some item ->
        nth_error sent i
        = Some (message cfg (today env) (now_isoformat env i) item)).
Proof.
  intros Hday Hget Hpub sent.
  assert (Hsent : sent = envelopes cfg env (today env) 0 all_data).
  { unfold sent. rewrite cycle_trading_day by exact Hday.
    rewrite bind_eq, Hget. cbn [fst snd]. rewrite bind_eq. cbn [fst].
    rewrite !published_app.
    pose proof (get_all_events cfg (source env) (pause env) fuel) as Hf.
    rewrite Hget in Hf. cbn [fst] in Hf. rewrite (fetch_events_unpublished _ Hf).
    destruct (publish_from_returns cfg producer env (today env) all_data 0 Hpub)
      as [Ho Hp].
    rewrite Ho, Hp. cbn. apply app_nil_r. }
  rewrite Hsent. split; [ reflexivity | ].
  split; [ apply envelopes_length | ].
  split; [ apply envelopes_data | ].
  intros i item Hi. apply (envelopes_nth cfg env (today env) all_data 0 i item Hi).
Qed.

(** C6. On a weekend day (weekday index 5 or 6) an iteration of the
    scheduler loop issues no page request and no publish call: all it does
    is one sleep of the configured interval, and when that sleep returns the
    loop goes on with its next iteration. *)
Theorem weekend_iteration_only_sleeps (fuel : nat) (cfg : Config)
    (producer : KafkaProducer) (env : cycle_env) (rest : list cycle_env) :
  weekday (today env) = 5 \/ weekday (today env) = 6 ->
  let tr := fst (cycle fuel cfg producer env) in
  tr = [EvSleep (inject_Z (COLLECTION_INTERVAL_SECONDS cfg))]
  /\ page_requests tr = []
  /\ published tr = []
  /\ sleeps tr = [inject_Z (COLLECTION_INTERVAL_SECONDS cfg)]
  /\ (interval_sleep env = None ->
      main_loop fuel cfg producer (env :: rest) =
      (tr ++ fst (main_loop fuel cfg producer rest),
       snd (main_loop fuel cfg producer rest))).
Proof.
  intros Hday tr.
  assert (H : 5 <= weekday (today env)) by (destruct Hday; lia).
  unfold tr. cbn [main_loop]. rewrite cycle_weekend by exact H. cbn [fst].
  repeat split. intros ->. cbn.
  destruct (main_loop fuel cfg producer rest). reflexivity.
Qed.

(** C10. Called with a falsy [data] (an empty dict, [None], ...),
    [send_to_kafka] returns [False] and does nothing else: no message is
    submitted to the broker.  So a send is attempted only for non-empty
    data. *)
Theorem send_to_kafka_without_data (cfg : Config) (producer : KafkaProducer)
    (data : json) (r : send_result) :
  truthy data = false ->
  send_to_kafka cfg producer data r = ([], Return false)
  /\ published (fst (send_to_kafka cfg producer data r)) = [].
Proof.
  intro H. rewrite send_to_kafka_cases, H. split; reflexivity.
Qed.

(** ** main *)

Lemma loop_events_no_teardown tr :
  forallb is_loop_event tr = true -> no_teardown tr = true.
Proof.
  unfold no_teardown. induction tr as [| ev tr IH]; [ reflexivity | ].
  cbn. intros [Hev H]%andb_true_iff. rewrite (IH H), andb_true_r.
  destruct ev; try reflexivity; discriminate.
Qed.

(** Once the producer is there, [main] is the scheduler loop inside its
    [try] statement. *)
Lemma main_started fuel cfg w :
  API_KEY cfg <> ""%string -> connect w = None ->
  main fuel cfg w =
  let body :=
    try_finally
      (try_excepts (main_loop fuel cfg Producer (cycles w))
         [ (is_KeyboardInterrupt, fun _ => ret tt);
           (is_Exception, fun _ => ret tt) ])
      (call (EvFlush 10) (flush_result w) ;;; call (EvClose 10) (close_result w)) in
  (EvKafkaProducer (map strip (split_comma (KAFKA_BOOTSTRAP_SERVERS cfg))) :: fst body,
   snd body).
Proof.
  intros Hkey Hc. unfold main, create_kafka_producer.
  destruct (String.eqb_spec (API_KEY cfg) "") as [E | _]; [ contradiction | ].
  rewrite Hc. cbn. destruct (try_finally _ _). reflexivity.
Qed.



(** C8. With an empty API key [main] returns at once: no producer is
    created, nothing is fetched, nothing is published.  With an API key but
    a producer that cannot be created (the constructor raises a [KafkaError]
    or another exception), [main] returns after that one attempt: the
    scheduler loop is never entered, whatever iterations were to come. *)
Theorem startup_failure_returns_before_loop (fuel : nat) (cfg : Config) (w : world) :
  (API_KEY cfg = ""%string -> main fuel cfg w = ([], Return tt))
  /\ (forall e, API_KEY cfg <> ""%string -> connect w = Some e ->
        is_Exception e = true ->
        main fuel cfg w =
        ([EvKafkaProducer (map strip (split_comma (KAFKA_BOOTSTRAP_SERVERS cfg)))],
         Return tt)).
Proof.
  split.
  - intros E. unfold main. rewrite E. reflexivity.
  - intros e Hkey Hc He. unfold main, create_kafka_producer.
    destruct (String.eqb_spec (API_KEY cfg) "") as [E | _]; [ contradiction | ].
    rewrite Hc. unfold try_excepts, call, bind. cbn [handler_for].
    destruct e; try discriminate; reflexivity.
Qed.

(** C3. On Tuesday 2025-04-08, with a source of two pages of 100 records
    and an empty third page, the cycle publishes 200 envelopes whose
    [search_date] is "2025-04-08", while each of its three page requests
    asked the source for the date 20250407: the [search_date] is the day of
    the run, not the date whose records were requested. *)
Theorem search_date_is_not_the_requested_date :
  let env := two_pages (mkDate 2025 4 8) in
  let tr := fst (cycle 3 sample_cfg Producer env) in
  weekday (today env) = 1
  /\ map basDt (page_requests tr) = ["20250407"; "20250407"; "20250407"]%string
  /\ map (field "search_date") (published tr)
     = repeat (Some (JStr "2025-04-08")) 200
  /\ map (field "api_endpoint") (published tr)
     = repeat (Some (JStr (API_ENDPOINT sample_cfg))) 200.
Proof. vm_compute. repeat split. Qed.

(** C4. On Tuesday 2025-04-08 every page request of the cycle carries
    [basDt] = "20250407", which is not the day of the run (20250408). *)
Theorem basDt_is_not_the_day_of_the_run :
  let env := two_pages (mkDate 2025 4 8) in
  let tr := fst (cycle 3 sample_cfg Producer env) in
  weekday (today env) = 1
  /\ yyyymmdd (today env) = "20250408"%string
  /\ map basDt (page_requests tr) = ["20250407"; "20250407"; "20250407"]%string.
Proof. vm_compute. repeat split. Qed.

(** The scenario of the specification run on 2025-04-07 itself, a Monday:
    200 publish calls, each envelope with [search_date] "2025-04-07" and the
    configured endpoint name. *)
Lemma scenario_on_2025_04_07 :
  let env := two_pages (mkDate 2025 4 7) in
  let tr := fst (cycle 3 sample_cfg Producer env) in
  List.length (published tr) = 200%nat
  /\ map basDt (page_requests tr) = ["20250407"; "20250407"; "20250407"]%string
  /\ map (field "search_date") (published tr)
     = repeat (Some (JStr "2025-04-07")) 200
  /\ map (field "api_endpoint") (published tr)
     = repeat (Some (JStr "getStockPriceInfo")) 200
  /\ map (field "data") (published tr)
     = map Some (records 0 100 ++ records 100 100).
Proof. vm_compute. repeat split. Qed.

(** In every cycle the [search_date] of each envelope is the day of the
    run. *)
Lemma envelopes_search_date cfg env d all_data : forall i,
  map (field "search_date") (envelopes cfg env d i all_data)
  = repeat (Some (JStr (strftime_Y_m_d d))) (List.length all_data).
Proof.
  induction all_data as [| item rest IH]; intro i; [ reflexivity | ].
  cbn [envelopes map List.length repeat]. rewrite IH. reflexivity.
Qed.

(** ** The theorems at concrete inputs *)

Example failing_requests :
  request_fails (Raises (Exception "ConnectionError")) = true
  /\ request_fails (Body (JArr [])) = true
  /\ request_fails (Body (body_of (JNum 7))) = true
  /\ request_fails (Body (JObj [("response", JObj [("body", JObj [("items", JStr "")])])]))
     = true
  /\ request_fails (Raises KeyboardInterrupt) = false
  /\ request_fails (Body (JObj [])) = false.
Proof. repeat split; reflexivity. Qed.

Lemma fetch_all_pages_then_empty_page_witness :
  exists tr,
    get_all_stock_price_data sample_cfg (source flaky_broker) (pause flaky_broker) 2
    = (tr, Return (List.concat [records 0 3]))
    /\ page_requests tr =
       map (fun k => request_params sample_cfg "20250407" 100 (Z.of_nat k))
           (seq 1 (S (List.length [records 0 3])))
    /\ List.length (page_requests tr) = S (List.length [records 0 3]).
Proof.
  apply (fetch_all_pages_then_empty_page sample_cfg (source flaky_broker)
           (pause flaky_broker) [records 0 3] 2).
  - discriminate.
  - intros [| [| i]] recs H; cbn in H; try discriminate.
    injection H as <-. split; [ discriminate | reflexivity ].
  - exists (JArr []). split; reflexivity.
  - intros i _. reflexivity.
  - cbn. lia.
Defined.

Lemma fetch_stops_at_failed_page_witness :
  exists tr,
    get_all_stock_price_data sample_cfg timeout_on_second (fun _ => None) 2
    = (tr, Return (List.concat [records 0 3]))
    /\ page_requests tr =
       map (fun k => request_params sample_cfg "20250407" 100 (Z.of_nat k))
           (seq 1 (S (List.length [records 0 3])))
    /\ last (map pageNo (page_requests tr)) ""%string
       = str (Z.of_nat (S (List.length [records 0 3]))).
Proof.
  apply (fetch_stops_at_failed_page sample_cfg timeout_on_second (fun _ => None)
           [records 0 3] 2).
  - discriminate.
  - intros [| [| i]] recs H; cbn in H; try discriminate.
    injection H as <-. split; [ discriminate | reflexivity ].
  - reflexivity.
  - intros i _. reflexivity.
  - cbn. lia.
Defined.

(** A failure on the very first page: one request, nothing collected. *)
Example first_page_fails :
  get_all_stock_price_data sample_cfg (fun _ => Raises (Exception "ConnectionError"))
    (fun _ => None) 5
  = ([EvGet "https://apis.data.go.kr/1160100/service/GetStockSecuritiesInfoService/getStockPriceInfo"
        (request_params sample_cfg "20250407" 100 1) 20],
     Return []).
Proof. reflexivity. Qed.

Lemma publish_each_record_once_witness :
  let sent := published (fst (cycle 2 sample_cfg Producer flaky_broker)) in
  sent = envelopes sample_cfg flaky_broker (today flaky_broker) 0 (records 0 3)
  /\ List.length sent = List.length (records 0 3)
  /\ map (field "data") sent = map Some (records 0 3)
  /\ (forall i item, nth_error (records 0 3) i = Some item ->
        nth_error sent i
        = Some (message sample_cfg (today flaky_broker)
                  (now_isoformat flaky_broker i) item)).
Proof.
  apply (publish_each_record_once 2 sample_cfg Producer flaky_broker
           (fst (get_all_stock_price_data sample_cfg (source flaky_broker)
                   (pause flaky_broker) 2))
           (records 0 3)).
  - reflexivity.
  - vm_compute. reflexivity.
  - intros [| [| [| i]]] _; reflexivity.
Defined.

Lemma weekend_iteration_only_sleeps_witness :
  let tr := fst (cycle 2 sample_cfg Producer (saturday None)) in
  tr = [EvSleep (inject_Z (COLLECTION_INTERVAL_SECONDS sample_cfg))]
  /\ page_requests tr = []
  /\ published tr = []
  /\ sleeps tr = [inject_Z (COLLECTION_INTERVAL_SECONDS sample_cfg)]
  /\ (interval_sleep (saturday None) = None ->
      main_loop 2 sample_cfg Producer [saturday None; flaky_broker] =
      (tr ++ fst (main_loop 2 sample_cfg Producer [flaky_broker]),
       snd (main_loop 2 sample_cfg Producer [flaky_broker]))).
Proof.
  apply (weekend_iteration_only_sleeps 2 sample_cfg Producer (saturday None)
           [flaky_broker]).
  left. reflexivity.
Defined.

Lemma send_to_kafka_without_data_witness :
  send_to_kafka sample_cfg Producer (JObj []) (Sent (Delivered 0 0))
  = ([], Return false)
  /\ published (fst (send_to_kafka sample_cfg Producer (JObj []) (Sent (Delivered 0 0))))
     = [].
Proof.
  apply (send_to_kafka_without_data sample_cfg Producer (JObj []) (Sent (Delivered 0 0))).
  reflexivity.
Defined.


Lemma startup_failure_returns_before_loop_witness :
  main 2 {| KAFKA_BOOTSTRAP_SERVERS := "daa-kafka1:9092";
            KAFKA_TOPIC := "stock-data";
            API_BASE_URL := "https://apis.data.go.kr";
            API_KEY := "";
            API_ENDPOINT := "getStockPriceInfo";
            COLLECTION_INTERVAL_SECONDS := 86400 |}
       (connected [flaky_broker])
  = ([], Return tt)
  /\ main 2 sample_cfg
       {| connect := Some KafkaError; cycles := [flaky_broker];
          flush_result := None; close_result := None |}
     = ([EvKafkaProducer ["daa-kafka1:9092"; "daa-kafka2:9093"]%string], Return tt).
Proof.
  split.
  - apply (startup_failure_returns_before_loop 2). reflexivity.
  - apply (proj2 (startup_failure_returns_before_loop 2 sample_cfg
                    {| connect := Some KafkaError; cycles := [flaky_broker];
                       flush_result := None; close_result := None |})
             KafkaError).
    + discriminate.
    + reflexivity.
    + reflexivity.
Defined.

(** The exits of the loop, run: an interrupt during the sleep, an exception
    out of the sleep, an exception that no clause catches, and a [flush]
    that times out. *)
Example exit_by_interrupt :
  let r := main 2 sample_cfg (connected [saturday None; saturday (Some KeyboardInterrupt)]) in
  snd r = Return tt
  /\ filter is_teardown (fst r) = [EvFlush 10; EvClose 10]
  /\ sleeps (fst r) = [inject_Z 86400; inject_Z 86400].
Proof. vm_compute. repeat split. Qed.

Example exit_by_exception :
  let r := main 2 sample_cfg (connected [saturday (Some (Exception "ValueError"))]) in
  snd r = Return tt /\ filter is_teardown (fst r) = [EvFlush 10; EvClose 10].
Proof. vm_compute. repeat split. Qed.

Example exit_by_system_exit :
  let r := main 2 sample_cfg (connected [saturday (Some SystemExit)]) in
  snd r = Raise SystemExit /\ filter is_teardown (fst r) = [EvFlush 10; EvClose 10].
Proof. vm_compute. repeat split. Qed.

Example flush_times_out :
  let r := main 2 sample_cfg
             {| connect := None; cycles := [saturday (Some KeyboardInterrupt)];
                flush_result := Some KafkaError; close_result := None |} in
  snd r = Raise KafkaError /\ filter is_teardown (fst r) = [EvFlush 10].
Proof. vm_compute. repeat split. Qed.

Example still_running :
  snd (main 2 sample_cfg (connected [saturday None; saturday None])) = Pending.
Proof. reflexivity. Qed.

(** The cycle met by the flaky broker: every record is submitted once, in
    order, whatever became of the one before. *)
Example flaky_cycle :
  let tr := fst (cycle 2 sample_cfg Producer flaky_broker) in
  map (field "data") (published tr) = map Some (records 0 3)
  /\ List.length (page_requests tr) = 2%nat.
Proof. vm_compute. repeat split. Qed.

(** With an empty API key the fetch asks for nothing. *)
Lemma get_all_without_key cfg source pause fuel :
  API_KEY cfg = ""%string ->
  get_all_stock_price_data cfg source pause fuel = ([], Return []).
Proof. intro E. unfold get_all_stock_price_data. rewrite E. reflexivity. Qed.

(** * Further properties of the code *)

(** ** The fetch, in general *)

Lemma classify_more_nonempty r new : classify r = StepMore new -> new <> [].
Proof.
  unfold classify, caught. destruct r as [e | data].
  - destruct (is_Exception e); discriminate.
  - destruct (items_of data) as [e | items].
    + destruct (is_Exception e); discriminate.
    + destruct items as [ | b | n | s | l | kvs ]; cbn; try discriminate.
      * destruct b; discriminate.
      * destruct (n =? 0); discriminate.
      * destruct s as [| c s]; cbn [truthy String.eqb negb py_iter];
          [ discriminate | ].
        intro H; injection H as <-. cbn [list_ascii_of_string utf8_chars].
        destruct (list_ascii_of_string s) as [| c' l'] eqn:El; [ discriminate | ].
        destruct (is_continuation c'); [ | discriminate ].
        destruct (utf8_chars (c' :: l')); discriminate.
      * destruct l; [ discriminate | ]. intro H; injection H as <-. discriminate.
      * destruct kvs; [ discriminate | ]. intro H; injection H as <-. discriminate.
Qed.

Lemma classify_raise r e : classify r = StepRaise e -> is_Exception e = false.
Proof.
  assert (Hc : forall e', caught e' = StepRaise e -> is_Exception e = false).
  { intros e'. unfold caught. destruct (is_Exception e') eqn:E; [ discriminate | ].
    intro H; injection H as <-. exact E. }
  unfold classify. destruct r as [e' | data]; [ apply Hc | ].
  destruct (items_of data) as [e' | items]; [ apply Hc | ].
  destruct (truthy items); [ | discriminate ].
  destruct (py_iter items) as [e' | new]; [ apply Hc | discriminate ].
Qed.

Section FetchInGeneral.
Variable cfg : Config.
Variable source : Z -> http_result.
Variable pause : Z -> option exn.
Variables api_url basDt : string.
Variable num_of_rows : Z.

Let get (k : Z) : event :=
  EvGet api_url (request_params cfg basDt num_of_rows k) 20.
Let loop := fetch_loop cfg source pause.
Let paged := paged_from cfg api_url basDt num_of_rows.

(** Every return of the loop is that of [fetch_loop_pages]. *)
Lemma fetch_loop_return_inv fuel : forall k coll tr data,
  loop fuel api_url basDt num_of_rows k coll = (tr, Return data) ->
  exists pages,
    (forall i recs, nth_error pages i = Some recs ->
       classify (source (k + Z.of_nat i)) = StepMore recs)
    /\ classify (source (k + Z.of_nat (List.length pages))) = StepStop
    /\ (forall i, (i < List.length pages)%nat -> pause (k + Z.of_nat i) = None)
    /\ (List.length pages < fuel)%nat
    /\ data = coll ++ List.concat pages
    /\ tr = paged k (List.length pages) ++ [get (k + Z.of_nat (List.length pages))].
Proof.
  induction fuel as [| fuel IH]; intros k coll tr data H; [ discriminate | ].
  unfold loop in H. rewrite fetch_loop_step in H.
  destruct (classify (source k)) as [ | new | e ] eqn:Ec.
  - injection H as <- <-. exists [].
    cbn [List.length List.concat Z.of_nat]. rewrite Z.add_0_r, app_nil_r.
    repeat split; try assumption; try lia;
      try (intros [| i] recs Hi; discriminate);
      try (intros i Hi; cbn in Hi; lia).
  - destruct (pause k) eqn:Ep; [ discriminate | ].
    destruct (fetch_loop cfg source pause fuel api_url basDt num_of_rows (k + 1)
                (coll ++ new)) as [tr' o'] eqn:El.
    injection H as <- ->.
    destruct (IH _ _ _ _ El) as [pages [Hp [He [Hs [Hf [Hd Ht]]]]]].
    exists (new :: pages). cbn [List.length].
    replace (k + Z.of_nat (S (List.length pages)))
      with (k + 1 + Z.of_nat (List.length pages)) by lia.
    repeat split; try assumption; try lia.
    + intros [| i] recs Hi; cbn in Hi.
      * injection Hi as <-. cbn. rewrite Z.add_0_r. exact Ec.
      * replace (k + Z.of_nat (S i)) with (k + 1 + Z.of_nat i) by lia. auto.
    + intros [| i] Hi.
      * cbn. rewrite Z.add_0_r. exact Ep.
      * replace (k + Z.of_nat (S i)) with (k + 1 + Z.of_nat i) by lia.
        apply Hs. lia.
    + rewrite Hd. cbn [List.concat]. rewrite app_assoc. reflexivity.
    + rewrite Ht. reflexivity.
  - discriminate.
Qed.

(** A source that has records on every page from [k] on keeps the loop
    going. *)
Lemma fetch_loop_unending fuel : forall k coll,
  (forall j, k <= j -> (exists new, classify (source j) = StepMore new)
                       /\ pause j = None) ->
  snd (loop fuel api_url basDt num_of_rows k coll) = Pending
  /\ List.length (page_requests (fst (loop fuel api_url basDt num_of_rows k coll)))
     = fuel.
Proof.
  induction fuel as [| fuel IH]; intros k coll H; [ split; reflexivity | ].
  unfold loop. rewrite fetch_loop_step.
  destruct (H k (Z.le_refl k)) as [[new Hn] Hp]. rewrite Hn, Hp.
  destruct (IH (k + 1) (coll ++ new)) as [Ho Hl].
  { intros j Hj. apply H. lia. }
  unfold loop in Ho, Hl.
  destruct (fetch_loop cfg source pause fuel api_url basDt num_of_rows (k + 1)
              (coll ++ new)) as [tr o].
  cbn [fst snd page_requests] in *. split; [ exact Ho | ]. cbn. f_equal. exact Hl.
Qed.

(** What the loop raises comes from a pause or is no [Exception]. *)
Lemma fetch_loop_raises fuel : forall k coll tr e,
  loop fuel api_url basDt num_of_rows k coll = (tr, Raise e) ->
  is_Exception e = false \/ exists j, pause j = Some e.
Proof.
  induction fuel as [| fuel IH]; intros k coll tr e H; [ discriminate | ].
  unfold loop in H. rewrite fetch_loop_step in H.
  destruct (classify (source k)) as [ | new | e' ] eqn:Ec.
  - discriminate.
  - destruct (pause k) as [e' |] eqn:Ep.
    + injection H as <- <-. right. exists k. exact Ep.
    + destruct (fetch_loop cfg source pause fuel api_url basDt num_of_rows (k + 1)
                  (coll ++ new)) as [tr' o'] eqn:El.
      injection H as <- ->. exact (IH _ _ _ _ El).
  - injection H as <- <-. left. exact (classify_raise _ _ Ec).
Qed.
End FetchInGeneral.

(** X1. Whenever the fetch returns (with a configured API key), it was
    served some pages 1..n with records, each of which it appended (at
    least one record per page), and stopped at page n + 1; what it returns
    is the concatenation of those pages, and its trace is: request, pause of
    0.3 s, request, ..., request, every request going to
    API_BASE_URL/API_ENDPOINT with a timeout of 20 s and no pause following
    the last one. *)
Theorem fetch_return_characterised (cfg : Config) (source : Z -> http_result)
    (pause : Z -> option exn) (fuel : nat) (tr : list event) (data : list json) :
  API_KEY cfg <> ""%string ->
  get_all_stock_price_data cfg source pause fuel = (tr, Return data) ->
  exists pages,
    (forall i recs, nth_error pages i = Some recs ->
       recs <> [] /\ classify (source (Z.of_nat (S i))) = StepMore recs)
    /\ classify (source (Z.of_nat (S (List.length pages)))) = StepStop
    /\ (forall i, (i < List.length pages)%nat -> pause (Z.of_nat (S i)) = None)
    /\ data = List.concat pages
    /\ tr = paged_from cfg (API_BASE_URL cfg ++ "/" ++ API_ENDPOINT cfg)%string
              "20250407" 100 1 (List.length pages)
            ++ [EvGet (API_BASE_URL cfg ++ "/" ++ API_ENDPOINT cfg)%string
                  (request_params cfg "20250407" 100
                     (Z.of_nat (S (List.length pages)))) 20].
Proof.
  intros Hkey H. unfold get_all_stock_price_data in H.
  destruct (String.eqb_spec (API_KEY cfg) "") as [E | _]; [ contradiction | ].
  apply fetch_loop_return_inv in H.
  destruct H as [pages [Hp [He [Hs [_ [Hd Ht]]]]]].
  exists pages.
  replace (Z.of_nat (S (List.length pages))) with (1 + Z.of_nat (List.length pages))
    by lia.
  repeat split; try assumption.
  - apply classify_more_nonempty with (source (Z.of_nat (S i))).
    replace (Z.of_nat (S i)) with (1 + Z.of_nat i) by lia. auto.
  - replace (Z.of_nat (S i)) with (1 + Z.of_nat i) by lia. auto.
  - intros i Hi. replace (Z.of_nat (S i)) with (1 + Z.of_nat i) by lia. auto.
Qed.

Lemma fetch_return_characterised_witness :
  exists pages,
    (forall i recs, nth_error pages i = Some recs ->
       recs <> [] /\ classify (timeout_on_second (Z.of_nat (S i))) = StepMore recs)
    /\ classify (timeout_on_second (Z.of_nat (S (List.length pages)))) = StepStop
    /\ (forall i, (i < List.length pages)%nat -> (fun _ : Z => @None exn) (Z.of_nat (S i)) = None)
    /\ records 0 3 = List.concat pages
    /\ fst (get_all_stock_price_data sample_cfg timeout_on_second (fun _ => None) 4)
       = paged_from sample_cfg
           (API_BASE_URL sample_cfg ++ "/" ++ API_ENDPOINT sample_cfg)%string
           "20250407" 100 1 (List.length pages)
         ++ [EvGet (API_BASE_URL sample_cfg ++ "/" ++ API_ENDPOINT sample_cfg)%string
               (request_params sample_cfg "20250407" 100
                  (Z.of_nat (S (List.length pages)))) 20].
Proof.
  apply (fetch_return_characterised sample_cfg timeout_on_second (fun _ => None) 4).
  - discriminate.
  - vm_compute. reflexivity.
Defined.

(** X2. The fetch has no page limit: against a source that has records on
    every page (the pauses returning), it never returns; however long it is
    observed it is still running, having issued one request per page
    observed. *)
Theorem fetch_has_no_page_limit (cfg : Config) (source : Z -> http_result)
    (pause : Z -> option exn) (fuel : nat) :
  API_KEY cfg <> ""%string ->
  (forall j, 1 <= j -> (exists new, classify (source j) = StepMore new)
                       /\ pause j = None) ->
  snd (get_all_stock_price_data cfg source pause fuel) = Pending
  /\ List.length (page_requests (fst (get_all_stock_price_data cfg source pause fuel)))
     = fuel.
Proof.
  intros Hkey H. unfold get_all_stock_price_data.
  destruct (String.eqb_spec (API_KEY cfg) "") as [E | _]; [ contradiction | ].
  apply fetch_loop_unending. exact H.
Qed.

Lemma fetch_has_no_page_limit_witness :
  snd (get_all_stock_price_data sample_cfg endless (fun _ => None) 50) = Pending
  /\ List.length (page_requests
                    (fst (get_all_stock_price_data sample_cfg endless (fun _ => None) 50)))
     = 50%nat.
Proof.
  apply (fetch_has_no_page_limit sample_cfg endless (fun _ => None) 50).
  - discriminate.
  - intros j _. split; [ exists [record j]; reflexivity | reflexivity ].
Defined.

(** X3. The fetch lets no error of a request escape: whatever it raises
    was raised by a pause between pages, or is no [Exception] (a
    [KeyboardInterrupt], a [SystemExit]). *)
Theorem fetch_raises_only_interrupts (cfg : Config) (source : Z -> http_result)
    (pause : Z -> option exn) (fuel : nat) (tr : list event) (e : exn) :
  get_all_stock_price_data cfg source pause fuel = (tr, Raise e) ->
  is_Exception e = false \/ exists j, pause j = Some e.
Proof.
  unfold get_all_stock_price_data.
  destruct (API_KEY cfg =? "")%string; [ discriminate | ].
  apply fetch_loop_raises.
Qed.

Lemma fetch_raises_only_interrupts_witness :
  is_Exception KeyboardInterrupt = false
  \/ exists j, (fun _ : Z => @None exn) j = Some KeyboardInterrupt.
Proof.
  apply (fetch_raises_only_interrupts sample_cfg
           (fun k => if k =? 1 then Body (body_of (JArr [record 1]))
                     else Raises KeyboardInterrupt)
           (fun _ => None) 3
           (fst (get_all_stock_price_data sample_cfg
                   (fun k => if k =? 1 then Body (body_of (JArr [record 1]))
                             else Raises KeyboardInterrupt)
                   (fun _ => None) 3))).
  vm_compute. reflexivity.
Defined.

(** X4. A body that is a dict but lacks a key of the item path (each dict
    on the way being there) is no error: the defaults of the [.get] chain
    make its items the empty list, so the page ends the fetch like an empty
    page. *)
Theorem missing_key_is_end_of_data (data : json) :
  path_absent data = true ->
  items_of data = inr (JArr [])
  /\ request_fails (Body data) = false
  /\ classify (Body data) = StepStop.
Proof.
  intro H.
  assert (Hi : items_of data = inr (JArr [])).
  { unfold path_absent in H. unfold items_of, py_get.
    destruct data as [ | | | | | kvs ]; try discriminate.
    destruct (assoc "response" kvs) as [[ | | | | | kvs1 ] |]; try discriminate;
      [ | reflexivity ].
    destruct (assoc "body" kvs1) as [[ | | | | | kvs2 ] |]; try discriminate;
      [ | reflexivity ].
    destruct (assoc "items" kvs2) as [[ | | | | | kvs3 ] |]; try discriminate;
      [ | reflexivity ].
    destruct (assoc "item" kvs3); [ discriminate | reflexivity ]. }
  unfold request_fails, classify. rewrite Hi. repeat split.
Qed.

Lemma missing_key_is_end_of_data_witness :
  items_of (JObj [("response", JObj [("header", JObj [])])]) = inr (JArr [])
  /\ request_fails (Body (JObj [("response", JObj [("header", JObj [])])])) = false
  /\ classify (Body (JObj [("response", JObj [("header", JObj [])])])) = StepStop.
Proof.
  apply (missing_key_is_end_of_data (JObj [("response", JObj [("header", JObj [])])])).
  reflexivity.
Defined.

(** ** send_to_kafka and create_kafka_producer *)

(** X5. [send_to_kafka] returns [True] exactly when the data is non-empty
    and the broker confirmed the delivery: for every other outcome of the
    broker it does not return [True]. *)
Theorem send_to_kafka_true_iff_delivered (cfg : Config) (producer : KafkaProducer)
    (data : json) (r : send_result) :
  snd (send_to_kafka cfg producer data r) = Return true
  <-> truthy data = true /\ exists p o, r = Sent (Delivered p o).
Proof.
  rewrite send_to_kafka_cases. destruct (truthy data).
  - destruct r as [e | [e | p o]]; cbn [snd].
    + split; [ destruct (is_Exception e); discriminate | ].
      intros [_ [p [o H]]]; discriminate.
    + split; [ destruct (is_Exception e); discriminate | ].
      intros [_ [p [o H]]]; discriminate.
    + split; [ intros _; split; [ reflexivity | exists p, o; reflexivity ] | reflexivity ].
  - cbn. split; [ discriminate | intros [H _]; discriminate ].
Qed.

(** X6. One call of [send_to_kafka] submits at most one message, the data
    as it was given, to the configured topic, and waits for the
    confirmation (15 s at most) only when the submission returned a future;
    it never tries again, and no [Exception] leaves it. *)
Theorem send_to_kafka_one_attempt (cfg : Config) (producer : KafkaProducer)
    (data : json) (r : send_result) :
  (exists n, fst (send_to_kafka cfg producer data r)
             = firstn n [EvSend (KAFKA_TOPIC cfg) data; EvFutureGet 15])
  /\ (In (EvFutureGet 15) (fst (send_to_kafka cfg producer data r)) ->
      exists future, r = Sent future)
  /\ (forall e, snd (send_to_kafka cfg producer data r) = Raise e ->
      is_Exception e = false).
Proof.
  rewrite send_to_kafka_cases. destruct (truthy data).
  - destruct r as [e | [e | p o]]; cbn [fst snd]; repeat split.
    + exists 1%nat. reflexivity.
    + intros [H | []]. discriminate.
    + intros e'. destruct (is_Exception e) eqn:E; [ discriminate | ].
      intro H; injection H as <-. exact E.
    + exists 2%nat. reflexivity.
    + intros _. eexists. reflexivity.
    + intros e'. destruct (is_Exception e) eqn:E; [ discriminate | ].
      intro H; injection H as <-. exact E.
    + exists 2%nat. reflexivity.
    + intros _. eexists. reflexivity.
    + discriminate.
  - cbn [fst snd]. repeat split.
    + exists 0%nat. reflexivity.
    + intros [].
    + discriminate.
Qed.

Lemma create_kafka_producer_cases (cfg : Config) (connect : option exn) :
  create_kafka_producer cfg connect =
  ([EvKafkaProducer (map strip (split_comma (KAFKA_BOOTSTRAP_SERVERS cfg)))],
   match connect with
   | None => Return (Some Producer)
   | Some e => if is_Exception e then Return None else Raise e
   end).
Proof.
  unfold create_kafka_producer, try_excepts, call, bind.
  destruct connect as [e |]; cbn [handler_for]; [ | reflexivity ].
  destruct e; reflexivity.
Qed.

(** X7. [create_kafka_producer] turns every error of the constructor into
    [None]: it returns [None] exactly when the constructor raised a
    [KafkaError] or another [Exception], the producer exactly when the
    constructor returned, and what it raises itself is never an [Exception];
    in each case the constructor was called once and nothing else was. *)
Theorem create_kafka_producer_none_iff_error (cfg : Config) (connect : option exn) :
  (snd (create_kafka_producer cfg connect) = Return None
   <-> exists e, connect = Some e /\ is_Exception e = true)
  /\ (snd (create_kafka_producer cfg connect) = Return (Some Producer)
      <-> connect = None)
  /\ (forall e, snd (create_kafka_producer cfg connect) = Raise e ->
        connect = Some e /\ is_Exception e = false)
  /\ (exists servers,
        fst (create_kafka_producer cfg connect) = [EvKafkaProducer servers]).
Proof.
  rewrite create_kafka_producer_cases. cbn [fst snd].
  assert (Hev : exists servers,
            [EvKafkaProducer (map strip (split_comma (KAFKA_BOOTSTRAP_SERVERS cfg)))]
            = [EvKafkaProducer servers]) by (eexists; reflexivity).
  destruct connect as [e |]; [ destruct (is_Exception e) eqn:E | ];
    (split; [ split | split; [ split | split ] ]);
    try discriminate; try exact Hev; try (intros _; reflexivity).
  - intros _. exists e. split; [ reflexivity | exact E ].
  - intros [e' [H He']]. injection H as <-. congruence.
  - intros e' H. injection H as <-. split; [ reflexivity | exact E ].
  - intros [e [H _]]. discriminate.
Qed.

(** ** The server list *)

Lemma split_comma_nonempty s : split_comma s <> [].
Proof.
  destruct s as [| c s]; cbn; [ discriminate | ].
  destruct (Ascii.eqb c ","); [ discriminate | ].
  destruct (split_comma s); discriminate.
Qed.

Lemma split_comma_parts s : forall x, In x (split_comma s) -> has_comma x = false.
Proof.
  induction s as [| c s IH]; intros x Hx.
  - destruct Hx as [<- | []]. reflexivity.
  - cbn in Hx. destruct (Ascii.eqb c ",") eqn:Ec.
    + destruct Hx as [<- | Hx]; [ reflexivity | auto ].
    + destruct (split_comma s) as [| w ws].
      * destruct Hx as [<- | []]. unfold has_comma. cbn. rewrite Ec. reflexivity.
      * destruct Hx as [<- | Hx].
        -- unfold has_comma. cbn. rewrite Ec. cbn.
           apply (IH w). left. reflexivity.
        -- apply IH. right. exact Hx.
Qed.

Lemma split_comma_joins s : String.concat "," (split_comma s) = s.
Proof.
  induction s as [| c s IH]; [ reflexivity | ].
  cbn [split_comma]. destruct (Ascii.eqb_spec c ",") as [-> | Hc].
  - pose proof (split_comma_nonempty s) as Hn.
    destruct (split_comma s) as [| w ws]; [ congruence | ].
    change (String.concat "," ("" :: w :: ws))
      with ("" ++ "," ++ String.concat "," (w :: ws))%string.
    rewrite IH. reflexivity.
  - pose proof (split_comma_nonempty s) as Hn.
    destruct (split_comma s) as [| w ws]; [ congruence | ].
    destruct ws as [| w' ws].
    + cbn in IH |- *. rewrite IH. reflexivity.
    + change (String c (w ++ "," ++ String.concat "," (w' :: ws)) = String c s).
      change (w ++ "," ++ String.concat "," (w' :: ws) = s)%string in IH.
      rewrite IH. reflexivity.
Qed.

Lemma split_comma_length s :
  List.length (split_comma s)
  = S (List.length (filter (fun c => Ascii.eqb c ",") (list_ascii_of_string s))).
Proof.
  induction s as [| c s IH]; [ reflexivity | ].
  cbn [split_comma list_ascii_of_string filter].
  pose proof (split_comma_nonempty s) as Hn.
  destruct (Ascii.eqb c ","); cbn [List.length].
  - rewrite IH. reflexivity.
  - destruct (split_comma s) as [| w ws]; [ congruence | ].
    cbn [List.length] in IH |- *. exact IH.
Qed.

(** X8. Splitting at the commas loses nothing: there is one part more than
    there are commas (an empty string has the one part ""), no part has a
    comma, and the parts joined with commas are the string again. *)
Theorem split_comma_round_trip (s : string) :
  String.concat "," (split_comma s) = s
  /\ List.length (split_comma s)
     = S (List.length (filter (fun c => Ascii.eqb c ",") (list_ascii_of_string s)))
  /\ (forall x, In x (split_comma s) -> has_comma x = false).
Proof.
  split; [ apply split_comma_joins | ].
  split; [ apply split_comma_length | apply split_comma_parts ].
Qed.

Section Drop.
Variable p1 : ascii -> bool.
Variable p2 : ascii -> ascii -> bool.
Variable p3 : ascii -> ascii -> ascii -> bool.

Let drop := drop_while3 p1 p2 p3.

Lemma drop_splits_upto n : forall l, (List.length l <= n)%nat ->
  exists ws, forallb (chunk3 p1 p2 p3) ws = true /\ l = List.concat ws ++ drop l.
Proof.
  induction n as [| n IH]; intros l Hl.
  - destruct l; [ exists []; split; reflexivity | cbn in Hl; lia ].
  - destruct l as [| a rest]; [ exists []; split; reflexivity | ].
    unfold drop. cbn [drop_while3]. destruct (p1 a) eqn:E1.
    { destruct (IH rest) as [ws [Hc Hs]]; [ cbn in Hl; lia | ].
      exists ([a] :: ws). cbn. rewrite E1, Hc. split; [ reflexivity | ].
      f_equal. exact Hs. }
    destruct rest as [| b rest']; [ exists []; split; reflexivity | ].
    destruct (p2 a b) eqn:E2.
    { destruct (IH rest') as [ws [Hc Hs]]; [ cbn in Hl; lia | ].
      exists ([a; b] :: ws). cbn. rewrite E2, Hc. split; [ reflexivity | ].
      do 2 f_equal. exact Hs. }
    destruct rest' as [| c rest'']; [ exists []; split; reflexivity | ].
    destruct (p3 a b c) eqn:E3; [ | exists []; split; reflexivity ].
    destruct (IH rest'') as [ws [Hc Hs]]; [ cbn in Hl; lia | ].
    exists ([a; b; c] :: ws). cbn. rewrite E3, Hc. split; [ reflexivity | ].
    do 3 f_equal. exact Hs.
Qed.

Lemma drop_splits l :
  exists ws, forallb (chunk3 p1 p2 p3) ws = true /\ l = List.concat ws ++ drop l.
Proof. apply (drop_splits_upto (List.length l)). lia. Qed.

Lemma drop_head_upto n : forall l, (List.length l <= n)%nat ->
  leading3 p1 p2 p3 (drop l) = false.
Proof.
  induction n as [| n IH]; intros l Hl.
  - destruct l; [ reflexivity | cbn in Hl; lia ].
  - destruct l as [| a rest]; [ reflexivity | ].
    unfold drop. cbn [drop_while3]. destruct (p1 a) eqn:E1.
    { apply IH. cbn in Hl; lia. }
    destruct rest as [| b rest']; [ cbn; rewrite E1; reflexivity | ].
    destruct (p2 a b) eqn:E2.
    { apply IH. cbn in Hl; lia. }
    destruct rest' as [| c rest'']; [ cbn; rewrite E1, E2; reflexivity | ].
    destruct (p3 a b c) eqn:E3; [ | cbn; rewrite E1, E2, E3; reflexivity ].
    apply IH. cbn in Hl; lia.
Qed.

Lemma drop_head l : leading3 p1 p2 p3 (drop l) = false.
Proof. apply (drop_head_upto (List.length l)). lia. Qed.

Lemma leading3_prefix x y :
  leading3 p1 p2 p3 (x ++ y) = false -> leading3 p1 p2 p3 x = false.
Proof.
  destruct x as [| a [| b [| c x]]]; cbn; try reflexivity.
  - destruct (p1 a); [ discriminate | reflexivity ].
  - destruct (p1 a); [ discriminate | ]. destruct (p2 a b); [ discriminate | reflexivity ].
  - intro H; exact H.
Qed.
End Drop.

Lemma rev_concat {A} (ws : list (list A)) :
  rev (List.concat ws) = List.concat (rev (map (@rev A) ws)).
Proof.
  induction ws as [| w ws IH]; [ reflexivity | ].
  cbn. rewrite rev_app_distr, IH, concat_app. cbn. rewrite app_nil_r. reflexivity.
Qed.

Lemma forallb_rev {A} (f : A -> bool) l : forallb f (rev l) = forallb f l.
Proof.
  induction l as [| a l IH]; [ reflexivity | ].
  cbn. rewrite forallb_app, IH. cbn. rewrite andb_true_r. apply andb_comm.
Qed.

Lemma reversed_space_chars ws :
  forallb (chunk3 is_space (fun b a => is_space2 a b) (fun c b a => is_space3 a b c)) ws
  = true ->
  forallb is_space_char (rev (map (@rev ascii) ws)) = true.
Proof.
  intro H. rewrite forallb_rev. induction ws as [| w ws IH]; [ reflexivity | ].
  cbn in H |- *. apply andb_true_iff in H. destruct H as [Hw Hws].
  rewrite (IH Hws), andb_true_r.
  destruct w as [| a [| b [| c [| d w]]]]; try discriminate; exact Hw.
Qed.

(** What [strip] keeps of a string. *)
Lemma strip_splits s :
  exists ps qs,
    list_ascii_of_string s
    = List.concat ps ++ list_ascii_of_string (strip s) ++ List.concat qs
    /\ forallb is_space_char ps = true
    /\ forallb is_space_char qs = true
    /\ leading_space (list_ascii_of_string (strip s)) = false
    /\ trailing_space (list_ascii_of_string (strip s)) = false.
Proof.
  unfold strip. rewrite list_ascii_of_string_of_list_ascii.
  set (l := list_ascii_of_string s).
  destruct (drop_splits is_space is_space2 is_space3 l) as [ps [Hps Hl]].
  pose proof (drop_head is_space is_space2 is_space3 l) as H1.
  fold (lstrip l) in Hl, H1. set (l1 := lstrip l) in *.
  destruct (drop_splits is_space (fun b a => is_space2 a b)
              (fun c b a => is_space3 a b c) (rev l1)) as [ws [Hws Hr]].
  pose proof (drop_head is_space (fun b a => is_space2 a b)
                (fun c b a => is_space3 a b c) (rev l1)) as H2.
  assert (E1 : l1 = rstrip l1 ++ List.concat (rev (map (@rev ascii) ws))).
  { unfold rstrip. rewrite <- rev_concat, <- rev_app_distr, <- Hr.
    symmetry. apply rev_involutive. }
  exists ps, (rev (map (@rev ascii) ws)).
  repeat split.
  - rewrite <- E1. exact Hl.
  - exact Hps.
  - apply reversed_space_chars. exact Hws.
  - apply leading3_prefix with (List.concat (rev (map (@rev ascii) ws))).
    rewrite <- E1. exact H1.
  - unfold trailing_space, rstrip. rewrite rev_involutive. exact H2.
Qed.


(** X9. [strip] removes whitespace at the two ends and nothing else: the
    string is the stripped string between two runs of whitespace characters
    (those of [str.isspace()], of one, two or three bytes in UTF-8), and the
    stripped string neither starts nor ends with a whitespace character. *)
Theorem strip_only_trims (s : string) :
  exists ps qs,
    list_ascii_of_string s
    = List.concat ps ++ list_ascii_of_string (strip s) ++ List.concat qs
    /\ forallb is_space_char ps = true
    /\ forallb is_space_char qs = true
    /\ leading_space (list_ascii_of_string (strip s)) = false
    /\ trailing_space (list_ascii_of_string (strip s)) = false.
Proof. apply strip_splits. Qed.

Example strip_unicode :
  strip ("  " ++ nbsp ++ emsp ++ " a:9092 b" ++ emsp ++ nbsp ++ " ")%string
  = "a:9092 b"%string
  /\ strip ("a:9092" ++ nbsp)%string = "a:9092"%string
  /\ strip (nbsp ++ " " ++ emsp)%string = ""%string.
Proof. repeat split; reflexivity. Qed.


(** ** The cycle and the loop, in general *)

Lemma in_firstn {A} (x : A) n l : In x (firstn n l) -> In x l.
Proof.
  intro H. rewrite <- (firstn_skipn n l). apply in_or_app. left. exact H.
Qed.

Lemma send_topics_app tr tr' : send_topics (tr ++ tr') = send_topics tr ++ send_topics tr'.
Proof.
  induction tr as [| ev tr IH]; [ reflexivity | ].
  destruct ev; cbn; rewrite IH; reflexivity.
Qed.

Lemma fetch_events_no_topics tr :
  forallb is_fetch_event tr = true -> send_topics tr = [].
Proof.
  induction tr as [| ev tr IH]; [ reflexivity | ].
  cbn. destruct ev; cbn; try discriminate; exact IH.
Qed.

(** Interrupted or not, the loop over the records has submitted the
    envelopes of the first records, in order, to the configured topic. *)
Lemma publish_from_prefix cfg producer env d all_data : forall i,
  (exists n, published (fst (publish_from cfg producer env d i all_data))
             = firstn n (envelopes cfg env d i all_data))
  /\ (forall t, In t (send_topics (fst (publish_from cfg producer env d i all_data))) ->
        t = KAFKA_TOPIC cfg).
Proof.
  induction all_data as [| item rest IH]; intro i.
  - split; [ exists 0%nat; reflexivity | intros t [] ].
  - destruct (IH (S i)) as [[n Hn] Ht].
    cbn [publish_from envelopes]. rewrite bind_eq, send_to_kafka_cases.
    cbn [truthy message].
    destruct (broker env i) as [e | [e | p o]]; cbn [fst snd];
      try destruct (is_Exception e);
      rewrite ?published_app, ?send_topics_app; cbn [published send_topics app];
      rewrite ?app_nil_r;
      try (split; [ exists (S n); rewrite Hn; reflexivity
                  | intros t [<- | H]; [ reflexivity | auto ] ]);
      (split; [ exists 1%nat; reflexivity | intros t [<- | []]; reflexivity ]).
Qed.

(** The messages of a cycle, whatever happens in it. *)
Lemma cycle_published fuel cfg producer env :
  (exists n, published (fst (cycle fuel cfg producer env))
             = firstn n (envelopes cfg env (today env) 0
                 match snd (get_all_stock_price_data cfg (source env) (pause env) fuel) with
                 | Return all_data => all_data
                 | _ => []
                 end))
  /\ (forall t, In t (send_topics (fst (cycle fuel cfg producer env))) ->
        t = KAFKA_TOPIC cfg).
Proof.
  destruct (Z.lt_ge_cases (weekday (today env)) 5) as [H | H].
  - rewrite cycle_trading_day by exact H. rewrite bind_eq. cbn [fst].
    rewrite published_app, send_topics_app.
    pose proof (get_all_events cfg (source env) (pause env) fuel) as Hf.
    rewrite (fetch_events_unpublished _ Hf), (fetch_events_no_topics _ Hf).
    destruct (snd (get_all_stock_price_data _ _ _ _)) as [all_data | e |];
      try (split; [ exists 0%nat; reflexivity | intros t [] ]).
    destruct (publish_from_prefix cfg producer env (today env) all_data 0)
      as [[n Hn] Ht].
    rewrite bind_eq. cbn [fst app]. rewrite published_app, send_topics_app.
    assert (Hs : forall o : outcome unit,
              published match o with
                        | Return _ => fst (sleep (inject_Z (COLLECTION_INTERVAL_SECONDS cfg))
                                             (interval_sleep env))
                        | _ => []
                        end = []
              /\ send_topics match o with
                             | Return _ => fst (sleep (inject_Z (COLLECTION_INTERVAL_SECONDS cfg))
                                                  (interval_sleep env))
                             | _ => []
                             end = []).
    { intros [a | e |]; split; reflexivity. }
    destruct (Hs (snd (publish_from cfg producer env (today env) 0 all_data)))
      as [-> ->].
    rewrite !app_nil_r. split; [ exists n; exact Hn | exact Ht ].
  - rewrite cycle_weekend by exact H.
    split; [ exists 0%nat; reflexivity | intros t [] ].
Qed.

Lemma envelopes_fields cfg env d all_data : forall i m,
  In m (envelopes cfg env d i all_data) ->
  field "source" m = Some (JStr "stock_price_api")
  /\ field "api_endpoint" m = Some (JStr (API_ENDPOINT cfg))
  /\ field "search_date" m = Some (JStr (strftime_Y_m_d d)).
Proof.
  induction all_data as [| item rest IH]; intros i m Hm.
  - destruct Hm.
  - destruct Hm as [<- | Hm]; [ repeat split | exact (IH _ _ Hm) ].
Qed.

(** X11. Whatever happens in a cycle (failed or interrupted publishes
    included), the messages it has submitted are the envelopes of the first
    records that the fetch returned, in the order of the fetch: no record is
    sent twice or out of turn, and nothing is sent that was not fetched in
    this cycle. *)
Theorem published_is_prefix_of_fetched (fuel : nat) (cfg : Config)
    (producer : KafkaProducer) (env : cycle_env) :
  exists n,
    published (fst (cycle fuel cfg producer env))
    = firstn n (envelopes cfg env (today env) 0
        match snd (get_all_stock_price_data cfg (source env) (pause env) fuel) with
        | Return all_data => all_data
        | _ => []
        end).
Proof. apply cycle_published. Qed.

(** X12. Every message of every cycle goes to the configured topic and
    carries the same provenance: [source] is "stock_price_api",
    [api_endpoint] the configured endpoint name and [search_date] the day of
    the iteration. *)
Theorem envelope_provenance (fuel : nat) (cfg : Config)
    (producer : KafkaProducer) (env : cycle_env) :
  (forall t, In t (send_topics (fst (cycle fuel cfg producer env))) ->
     t = KAFKA_TOPIC cfg)
  /\ (forall m, In m (published (fst (cycle fuel cfg producer env))) ->
        field "source" m = Some (JStr "stock_price_api")
        /\ field "api_endpoint" m = Some (JStr (API_ENDPOINT cfg))
        /\ field "search_date" m = Some (JStr (strftime_Y_m_d (today env)))).
Proof.
  destruct (cycle_published fuel cfg producer env) as [[n Hn] Ht].
  split; [ exact Ht | ].
  intros m Hm. rewrite Hn in Hm. apply in_firstn in Hm.
  exact (envelopes_fields _ _ _ _ _ _ Hm).
Qed.

(** X13. On a trading day the cycle works in phases: first the whole
    fetch; then, if the fetch returned, the publish loop over what it
    returned, and only that; and last, exactly when the publish loop has
    returned, one sleep of the configured interval, with which the cycle
    ends.  When the fetch or the publish loop does not return, the cycle
    ends there, as they end, without sleeping. *)
Theorem cycle_fetches_then_publishes (fuel : nat) (cfg : Config)
    (producer : KafkaProducer) (env : cycle_env) :
  weekday (today env) < 5 ->
  let fetch := get_all_stock_price_data cfg (source env) (pause env) fuel in
  let publish :=
    match snd fetch with
    | Return all_data => publish_from cfg producer env (today env) 0 all_data
    | Raise e => ([], Raise e)
    | Pending => ([], Pending)
    end in
  forallb is_fetch_event (fst fetch) = true
  /\ forallb is_publish_event (fst publish) = true
  /\ (snd publish = Return tt ->
      cycle fuel cfg producer env =
      (fst fetch ++ fst publish ++ [EvSleep (inject_Z (COLLECTION_INTERVAL_SECONDS cfg))],
       match interval_sleep env with None => Return tt | Some e => Raise e end))
  /\ (snd publish <> Return tt ->
      cycle fuel cfg producer env = (fst fetch ++ fst publish, snd publish)).
Proof.
  intros H fetch publish.
  split; [ apply get_all_events | ].
  split.
  { unfold publish. destruct (snd fetch); try reflexivity. apply publish_from_events. }
  rewrite cycle_trading_day by exact H. rewrite bind_eq. fold fetch.
  unfold publish. destruct (snd fetch) as [all_data | e |].
  - rewrite bind_eq.
    destruct (snd (publish_from cfg producer env (today env) 0 all_data))
      as [[] | e |] eqn:Ep.
    + split; [ intros _ | intros Hn; contradiction ].
      cbn. destruct (interval_sleep env); reflexivity.
    + split; [ discriminate | intros _ ]. rewrite app_nil_r. reflexivity.
    + split; [ discriminate | intros _ ]. rewrite app_nil_r. reflexivity.
  - split; [ discriminate | intros _ ]. reflexivity.
  - split; [ discriminate | intros _ ]. reflexivity.
Qed.

Lemma cycle_fetches_then_publishes_witness :
  let fetch := get_all_stock_price_data sample_cfg (source flaky_broker)
                 (pause flaky_broker) 2 in
  let publish :=
    match snd fetch with
    | Return all_data =>
        publish_from sample_cfg Producer flaky_broker (today flaky_broker) 0 all_data
    | Raise e => ([], Raise e)
    | Pending => ([], Pending)
    end in
  forallb is_fetch_event (fst fetch) = true
  /\ forallb is_publish_event (fst publish) = true
  /\ (snd publish = Return tt ->
      cycle 2 sample_cfg Producer flaky_broker =
      (fst fetch ++ fst publish
         ++ [EvSleep (inject_Z (COLLECTION_INTERVAL_SECONDS sample_cfg))],
       match interval_sleep flaky_broker with
       | None => Return tt
       | Some e => Raise e
       end))
  /\ (snd publish <> Return tt ->
      cycle 2 sample_cfg Producer flaky_broker = (fst fetch ++ fst publish, snd publish)).
Proof.
  apply (cycle_fetches_then_publishes 2 sample_cfg Producer flaky_broker).
  reflexivity.
Defined.

(** The phases, run: the publish loop returns although two of the three
    publishes fail, and the cycle sleeps once, at its end. *)
Example flaky_cycle_sleeps_last :
  snd (publish_from sample_cfg Producer flaky_broker (today flaky_broker) 0 (records 0 3))
  = Return tt
  /\ sleeps (fst (cycle 2 sample_cfg Producer flaky_broker))
     = [3 # 10; inject_Z 86400]
  /\ last (fst (cycle 2 sample_cfg Producer flaky_broker)) (EvFlush 0)
     = EvSleep (inject_Z 86400).
Proof. vm_compute. repeat split. Qed.

(** X14. A fetch that fails on its first page does not end the iteration:
    on a trading day the cycle then is that one request and the sleep of the
    configured interval, nothing being published, and it ends as the sleep
    ends. *)
Theorem failed_fetch_skips_to_sleep (fuel : nat) (cfg : Config)
    (producer : KafkaProducer) (env : cycle_env) :
  weekday (today env) < 5 ->
  API_KEY cfg <> ""%string ->
  request_fails (source env 1) = true ->
  cycle (S fuel) cfg producer env =
  ([EvGet (API_BASE_URL cfg ++ "/" ++ API_ENDPOINT cfg)%string
      (request_params cfg "20250407" 100 1) 20;
    EvSleep (inject_Z (COLLECTION_INTERVAL_SECONDS cfg))],
   match interval_sleep env with None => Return tt | Some e => Raise e end).
Proof.
  intros Hday Hkey Hfail. rewrite cycle_trading_day by exact Hday.
  unfold get_all_stock_price_data.
  destruct (String.eqb_spec (API_KEY cfg) "") as [E | _]; [ contradiction | ].
  rewrite fetch_loop_step, (classify_fails _ Hfail). reflexivity.
Qed.

Lemma failed_fetch_skips_to_sleep_witness :
  cycle 1 sample_cfg Producer source_down =
  ([EvGet (API_BASE_URL sample_cfg ++ "/" ++ API_ENDPOINT sample_cfg)%string
      (request_params sample_cfg "20250407" 100 1) 20;
    EvSleep (inject_Z (COLLECTION_INTERVAL_SECONDS sample_cfg))],
   match interval_sleep source_down with None => Return tt | Some e => Raise e end).
Proof.
  apply (failed_fetch_skips_to_sleep 0 sample_cfg Producer source_down).
  - reflexivity.
  - discriminate.
  - reflexivity.
Defined.

(** ** main, in general *)

(** [main] while the loop is running, and once the loop has raised (the
    loop never returns: that case is void). *)
Lemma main_cases fuel cfg w :
  API_KEY cfg <> ""%string -> connect w = None ->
  main fuel cfg w =
  let servers := map strip (split_comma (KAFKA_BOOTSTRAP_SERVERS cfg)) in
  let tr := fst (main_loop fuel cfg Producer (cycles w)) in
  match snd (main_loop fuel cfg Producer (cycles w)) with
  | Pending => (EvKafkaProducer servers :: tr, Pending)
  | Return a => (EvKafkaProducer servers :: tr, Pending)
  | Raise e =>
      (EvKafkaProducer servers :: tr ++ EvFlush 10 ::
         match flush_result w with None => [EvClose 10] | Some _ => [] end,
       match flush_result w with
       | Some e' => Raise e'
       | None =>
           match close_result w with
           | Some e' => Raise e'
           | None =>
               if is_KeyboardInterrupt e || is_Exception e
               then Return tt else Raise e
           end
       end)
  end.
Proof.
  intros Hkey Hc. rewrite (main_started fuel cfg w Hkey Hc). cbn zeta.
  pose proof (main_loop_never_returns fuel cfg Producer (cycles w)) as Hnr.
  destruct (main_loop fuel cfg Producer (cycles w)) as [tr [a | e |]];
    cbn [fst snd] in *.
  - exfalso. exact (Hnr a eq_refl).
  - unfold try_excepts. cbn [handler_for].
    destruct (is_KeyboardInterrupt e); [ | destruct (is_Exception e) ];
      cbn; rewrite ?app_nil_r; destruct (flush_result w), (close_result w);
      reflexivity.
  - reflexivity.
Qed.

(** X15. How [main] ends once the producer is there and the loop has raised
    [e]: it returns normally after a [KeyboardInterrupt] or an [Exception],
    and raises [e] again otherwise, in both cases after the teardown; an
    error of [flush] or of [close] takes the place of either. *)
Theorem main_outcome_after_loop (fuel : nat) (cfg : Config) (w : world) (e : exn) :
  API_KEY cfg <> ""%string ->
  connect w = None ->
  snd (main_loop fuel cfg Producer (cycles w)) = Raise e ->
  snd (main fuel cfg w) =
  match flush_result w with
  | Some e' => Raise e'
  | None =>
      match close_result w with
      | Some e' => Raise e'
      | None =>
          if is_KeyboardInterrupt e || is_Exception e then Return tt else Raise e
      end
  end.
Proof.
  intros Hkey Hc Hl. rewrite (main_cases fuel cfg w Hkey Hc). cbn zeta.
  rewrite Hl. reflexivity.
Qed.

Lemma main_outcome_after_loop_witness :
  snd (main 2 sample_cfg (connected [saturday (Some SystemExit)])) =
  match flush_result (connected [saturday (Some SystemExit)]) with
  | Some e' => Raise e'
  | None =>
      match close_result (connected [saturday (Some SystemExit)]) with
      | Some e' => Raise e'
      | None =>
          if is_KeyboardInterrupt SystemExit || is_Exception SystemExit
          then Return tt else Raise SystemExit
      end
  end.
Proof.
  apply (main_outcome_after_loop 2 sample_cfg
           (connected [saturday (Some SystemExit)]) SystemExit).
  - discriminate.
  - reflexivity.
  - reflexivity.
Defined.

Lemma main_loop_weekends fuel cfg producer cycles :
  (forall env, In env cycles ->
     5 <= weekday (today env) /\ interval_sleep env = None) ->
  main_loop fuel cfg producer cycles =
  (repeat (EvSleep (inject_Z (COLLECTION_INTERVAL_SECONDS cfg))) (List.length cycles),
   Pending).
Proof.
  induction cycles as [| env rest IH]; intro H; [ reflexivity | ].
  cbn [main_loop]. destruct (H env (or_introl eq_refl)) as [Hd Hs].
  rewrite cycle_weekend by exact Hd. rewrite Hs, IH.
  - reflexivity.
  - intros env' He. apply H. right. exact He.
Qed.

(** X16. Over any run of weekend days whose sleeps return, [main] creates
    the producer and then only sleeps, once per iteration and each time for
    the configured interval: nothing is requested, nothing is published, and
    the process goes on running. *)
Theorem weekends_only_sleep (fuel : nat) (cfg : Config) (w : world) :
  API_KEY cfg <> ""%string ->
  connect w = None ->
  (forall env, In env (cycles w) ->
     5 <= weekday (today env) /\ interval_sleep env = None) ->
  main fuel cfg w =
  (EvKafkaProducer (map strip (split_comma (KAFKA_BOOTSTRAP_SERVERS cfg)))
   :: repeat (EvSleep (inject_Z (COLLECTION_INTERVAL_SECONDS cfg)))
        (List.length (cycles w)),
   Pending).
Proof.
  intros Hkey Hc H. rewrite (main_cases fuel cfg w Hkey Hc). cbn zeta.
  rewrite (main_loop_weekends fuel cfg Producer (cycles w) H). reflexivity.
Qed.

Lemma weekends_only_sleep_witness :
  main 2 sample_cfg (connected [saturday None; saturday None]) =
  (EvKafkaProducer (map strip (split_comma (KAFKA_BOOTSTRAP_SERVERS sample_cfg)))
   :: repeat (EvSleep (inject_Z (COLLECTION_INTERVAL_SECONDS sample_cfg)))
        (List.length (cycles (connected [saturday None; saturday None]))),
   Pending).
Proof.
  apply (weekends_only_sleep 2 sample_cfg (connected [saturday None; saturday None])).
  - discriminate.
  - reflexivity.
  - intros env [<- | [<- | []]]; split; reflexivity || (vm_compute; discriminate).
Defined.

Lemma loop_events_no_producer tr :
  forallb is_loop_event tr = true ->
  forallb (fun ev => negb (is_producer_event ev)) tr = true.
Proof.
  induction tr as [| ev tr IH]; [ reflexivity | ].
  cbn. intros [Hev H]%andb_true_iff. rewrite (IH H), andb_true_r.
  destruct ev; try reflexivity; discriminate.
Qed.

(** X17. A run of [main] creates at most one producer, and does so before
    anything else: its trace is empty (no API key) or starts with the one
    call of the constructor. *)
Theorem one_producer_per_run (fuel : nat) (cfg : Config) (w : world) :
  fst (main fuel cfg w) = []
  \/ exists rest,
       fst (main fuel cfg w)
       = EvKafkaProducer (map strip (split_comma (KAFKA_BOOTSTRAP_SERVERS cfg))) :: rest
       /\ forallb (fun ev => negb (is_producer_event ev)) rest = true.
Proof.
  destruct (String.eqb_spec (API_KEY cfg) "") as [E | Hkey].
  - left. unfold main. rewrite E. reflexivity.
  - right. destruct (connect w) as [e |] eqn:Hc.
    + exists []. split; [ | reflexivity ].
      unfold main. destruct (String.eqb_spec (API_KEY cfg) ""); [ contradiction | ].
      rewrite create_kafka_producer_cases, Hc.
      destruct (is_Exception e); reflexivity.
    + rewrite (main_cases fuel cfg w Hkey Hc). cbn zeta.
      pose proof (loop_events_no_producer _
                    (main_loop_events fuel cfg Producer (cycles w))) as Hev.
      destruct (snd (main_loop fuel cfg Producer (cycles w))) as [a | e |];
        eexists; (split; [ reflexivity | ]); cbn [fst]; try exact Hev.
      rewrite forallb_app, Hev. destruct (flush_result w); reflexivity.
Qed.

(** X18. The teardown belongs to the end: as long as [main] is running, no
    [flush] and no [close] has been called. *)
Theorem no_teardown_while_running (fuel : nat) (cfg : Config) (w : world) :
  snd (main fuel cfg w) = Pending ->
  no_teardown (fst (main fuel cfg w)) = true.
Proof.
  destruct (String.eqb_spec (API_KEY cfg) "") as [E | Hkey].
  - unfold main. rewrite E. reflexivity.
  - destruct (connect w) as [e |] eqn:Hc.
    + unfold main. destruct (String.eqb_spec (API_KEY cfg) ""); [ contradiction | ].
      rewrite create_kafka_producer_cases, Hc.
      destruct (is_Exception e); reflexivity.
    + rewrite (main_cases fuel cfg w Hkey Hc). cbn zeta.
      pose proof (loop_events_no_teardown _
                    (main_loop_events fuel cfg Producer (cycles w))) as Hev.
      destruct (snd (main_loop fuel cfg Producer (cycles w))) as [a | e |];
        cbn [fst snd]; try (intros _; exact Hev).
      destruct (flush_result w); [ discriminate | ].
      destruct (close_result w); [ discriminate | ].
      destruct (is_KeyboardInterrupt e || is_Exception e); discriminate.
Qed.

Lemma no_teardown_while_running_witness :
  no_teardown (fst (main 2 sample_cfg (connected [saturday None; source_down]))) = true.
Proof.
  apply (no_teardown_while_running 2 sample_cfg (connected [saturday None; source_down])).
  reflexivity.
Defined.

(** ** The date of the envelope *)

Lemma length_append (a b : string) :
  String.length (a ++ b) = (String.length a + String.length b)%nat.
Proof. induction a as [| c a IH]; cbn; [ reflexivity | rewrite IH; reflexivity ]. Qed.

Lemma zfill_width (w : nat) (lo hi z : Z) :
  forallb (fun i => (String.length (zfill w (str (lo + Z.of_nat i))) =? w)%nat)
    (seq 0 (Z.to_nat (hi - lo + 1))) = true ->
  lo <= z <= hi ->
  String.length (zfill w (str z)) = w.
Proof.
  intros Hall Hz. rewrite forallb_forall in Hall.
  specialize (Hall (Z.to_nat (z - lo))).
  replace (lo + Z.of_nat (Z.to_nat (z - lo))) with z in Hall by lia.
  apply Nat.eqb_eq, Hall, in_seq. lia.
Qed.

(** X19. For a date with a four-digit year the [search_date] of the
    envelope has the shape YYYY-MM-DD: ten characters, the fifth and the
    eighth a hyphen. *)
Theorem search_date_shape (d : datetime) :
  1000 <= year d <= 9999 ->
  1 <= month d <= 12 ->
  1 <= day d <= 31 ->
  String.length (strftime_Y_m_d d) = 10%nat
  /\ String.get 4 (strftime_Y_m_d d) = Some "-"%char
  /\ String.get 7 (strftime_Y_m_d d) = Some "-"%char.
Proof.
  intros Hy Hm Hd. unfold strftime_Y_m_d.
  assert (Ly : String.length (zfill 4 (str (year d))) = 4%nat).
  { apply (zfill_width 4 1000 9999); [ vm_compute; reflexivity | lia ]. }
  assert (Lm : String.length (zfill 2 (str (month d))) = 2%nat).
  { apply (zfill_width 2 1 12); [ vm_compute; reflexivity | lia ]. }
  assert (Ld : String.length (zfill 2 (str (day d))) = 2%nat).
  { apply (zfill_width 2 1 31); [ vm_compute; reflexivity | lia ]. }
  set (y := zfill 4 (str (year d))) in *.
  set (m := zfill 2 (str (month d))) in *.
  set (dd := zfill 2 (str (day d))) in *.
  split; [ | split ].
  - rewrite !length_append, Ly, Lm, Ld. reflexivity.
  - pose proof (append_correct2 y ("-" ++ m ++ "-" ++ dd) 0) as H.
    rewrite Ly in H. cbn [Nat.add] in H. rewrite <- H. reflexivity.
  - pose proof (append_correct2 y ("-" ++ m ++ "-" ++ dd) 3) as H.
    rewrite Ly in H. cbn [Nat.add] in H. rewrite <- H.
    change ("-" ++ m ++ "-" ++ dd)%string with (String "-" (m ++ "-" ++ dd)).
    cbn [String.get].
    pose proof (append_correct2 m ("-" ++ dd) 0) as H'.
    rewrite Lm in H'. cbn [Nat.add] in H'. rewrite <- H'. reflexivity.
Qed.

Lemma search_date_shape_witness :
  String.length (strftime_Y_m_d (mkDate 2026 11 3)) = 10%nat
  /\ String.get 4 (strftime_Y_m_d (mkDate 2026 11 3)) = Some "-"%char
  /\ String.get 7 (strftime_Y_m_d (mkDate 2026 11 3)) = Some "-"%char.
Proof.
  apply (search_date_shape (mkDate 2026 11 3)); cbn; lia.
Defined.
